(** * geovista.geodesic: geodesic lines and the bounding-box manifold

    A shallow embedding of [lib/geovista/geodesic.py] ([geodesic],
    [geodesic_by_idx], [bbox]) and the properties of its index-grid
    bookkeeping.

    Conventions of the embedding
    - Python floats are idealised by the rationals [Q]; the module never
      computes with coordinates itself, it stores and forwards them.
    - A raised exception is the [Raise] branch of [result]; code is written in
      the error monad, in the order the Python statements run.
    - The libraries the module calls (pyproj, numpy's [isclose], pyvista) are
      the fields of the class [Collaborators]; theorems hold for every
      instance, and concrete instances are used to run the code.
    - [idx_map] is created by [np.empty], so a cell has no defined content
      until it is written; each cell keeps the list of values written to it,
      newest first, and its content is the head of that list. *)

From Stdlib Require Import ZArith QArith Qabs Qround Lqa Lia Ascii.
From stdpp Require Import base tactics option list list_numbers strings pretty.

Local Open Scope string_scope.
Local Open Scope list_scope.
Local Open Scope Z_scope.

(** ** Exceptions and the error monad *)

Inductive exn : Type :=
  | ValueError (msg : string)
  | TypeError (msg : string)
  | IndexError (msg : string)
  | AssertionError
  | MemoryError (msg : string)
  | ExternalError (msg : string).

Inductive result (A : Type) : Type :=
  | Ok (a : A)
  | Raise (e : exn).
Arguments Ok {A} a.
Arguments Raise {A} e.

#[global] Instance result_ret : MRet result := fun A a => Ok a.
#[global] Instance result_bind : MBind result := fun A B f m =>
  match m with
  | Ok a => f a
  | Raise e => Raise e
  end.

Definition is_Ok {A} (r : result A) : Prop := ∃ a, r = Ok a.

(** [assert cond]. *)
Definition py_assert (cond : bool) : result unit :=
  if cond then Ok tt else Raise AssertionError.

(** [l[i]] on a Python list: negative indices count from the end. *)
Definition py_getitem {A} (l : list A) (i : Z) : result A :=
  let n := Z.of_nat (length l) in
  let k := if i <? 0 then i + n else i in
  match (if (0 <=? k) && (k <? n) then l !! Z.to_nat k else None) with
  | Some x => Ok x
  | None => Raise (IndexError "list index out of range")
  end.

(** ** Module constants *)

Definition MANIFOLD_ELLIPSE : string := "WGS84".
Definition MANIFOLD_NPTS : Z := 64.
Definition MANIFOLD_C : Z := 128.

(** ** The mesh handed to the renderer

    [faces] holds the rows of the face array: the vertex count of the face
    followed by its vertex indices. *)

Record PolyData (P : Type) : Type := mkPolyData {
  points : list P;
  faces : list (list Z);
  n_faces : Z
}.
Arguments mkPolyData {P} _ _ _.
Arguments points {P} _.
Arguments faces {P} _.
Arguments n_faces {P} _.

(** ** External collaborators *)

Class Collaborators : Type := {
  (** a [pyproj.Geod] object *)
  Geod : Type;
  (** [pyproj.Geod(ellps=name)] *)
  pyproj_Geod : string → result Geod;
  (** [geod.npts(lon1, lat1, lon2, lat2, npts, radians=, initial_idx=,
      terminus_idx=)]: a list of (lon, lat) pairs *)
  Geod_npts : Geod → Q → Q → Q → Q → Z → bool → Z → Z → result (list (Q * Q));
  (** [np.isclose(a, b)] on two scalars *)
  np_isclose : Q → Q → bool;
  (** what [np.empty] does to get room for an integer array of shape
      [(rows, cols)], both non-negative: nothing to report, or the exception
      numpy raises for a shape too large to address or to allocate *)
  np_allocate : Z → Z → result unit;
  (** a cartesian point, and the projection of one (lon, lat) at a radius *)
  XYZ : Type;
  lonlat_to_xyz : Q → Q → Q → XYZ;
  (** [pdata.triangulate()] *)
  PolyData_triangulate : PolyData XYZ → PolyData XYZ
}.

(** ** geovista.common *)

(** Modelled from the spec: [wrap] of [geovista.common], a module whose
    source is missing. The spec calls it the longitude-wrap normalization
    mapping into the canonical half-open range [-180, 180), with 185 wrapping
    to -175. *)
Definition wrap1 (lon : Q) : Q :=
  (lon - 360 * inject_Z (Qfloor ((lon + 180) / 360)))%Q.

Definition wrap (lons : list Q) : list Q := wrap1 <$> lons.

(** Modelled from the spec: [to_xyz] of [geovista.common], a module whose
    source is missing. The spec has it convert the vertex buffer's geodetic
    points to cartesian coordinates at the given radius, producing the point
    array: one point per (lon, lat). *)
Definition to_xyz `{Collaborators} (lons lats : list Q) (radius : Q) : list XYZ :=
  zip_with (λ lon lat, lonlat_to_xyz lon lat radius) lons lats.

(** ** geodesic *)

Section geodesic.
Context `{Collaborators}.

(** [geod = pyproj.Geod(ellps=MANIFOLD_ELLIPSE)] when [geod is None]. *)
Definition default_geod (geod : option Geod) : result Geod :=
  match geod with
  | None => pyproj_Geod MANIFOLD_ELLIPSE
  | Some g => Ok g
  end.

(** [glons, glats = zip( *glonlats )]: unpacking fails on an empty list. *)
Definition unzip_lonlats (glonlats : list (Q * Q)) : result (list Q * list Q) :=
  match glonlats with
  | [] => Raise (ValueError "not enough values to unpack (expected 2, got 0)")
  | _ => Ok (glonlats.*1, glonlats.*2)
  end.

Definition geodesic (start_lon start_lat end_lon end_lat : Q) (npts : Z)
    (radians include_start include_end : bool) (geod : option Geod)
    : result (list Q * list Q) :=
  geod ← default_geod geod;
  let initial_idx := if include_start then 0 else 1 in
  let terminus_idx := if include_end then 0 else 1 in
  glonlats ← Geod_npts geod start_lon start_lat end_lon end_lat npts
               radians initial_idx terminus_idx;
  '(glons, glats) ← unzip_lonlats glonlats;
  let glons := wrap glons in
  Ok (glons, glats).

Definition geodesic_by_idx (longitudes latitudes : list Q) (start_idx end_idx : Z)
    (npts : Z) (radians include_start include_end : bool) (geod : option Geod)
    : result (list Q * list Q) :=
  geod ← default_geod geod;
  start_lon ← py_getitem longitudes start_idx;
  start_lat ← py_getitem latitudes start_idx;
  end_lon ← py_getitem longitudes end_idx;
  end_lat ← py_getitem latitudes end_idx;
  geodesic start_lon start_lat end_lon end_lat npts radians
    include_start include_end (Some geod).
End geodesic.

(** ** numpy helpers used by [bbox] *)

(** What [bbox] holds in [lons] and [lats]: a one-dimensional array, or a
    single number (a bare scalar argument, or the value of [lons[-1]]). *)
Inductive ArrayLike : Type :=
  | array (xs : list Q)
  | scalar (x : Q).

(** [np.asanyarray(x)] after the [isinstance(x, Iterable)] wrapping. *)
Definition asanyarray (x : ArrayLike) : list Q :=
  match x with
  | array xs => xs
  | scalar v => [v]
  end.

(** A cell of [idx_map]: the values written to it, newest first. *)
Abbreviation cell := (list Z).
Abbreviation grid := (list (list (list Z))).

(** The content of a cell; [np.empty] leaves it unspecified until written. *)
Definition content (h : cell) : Z := hd 0 h.

Definition np_empty `{Collaborators} (rows cols : Z) : result grid :=
  if (rows <? 0) || (cols <? 0)
  then Raise (ValueError "negative dimensions are not allowed")
  else _ ← np_allocate rows cols;
       Ok (replicate (Z.to_nat rows) (replicate (Z.to_nat cols) [])).

(** An integer index along an axis of length [size]. *)
Definition np_axis_index (axis : nat) (size : nat) (i : Z) : result nat :=
  let n := Z.of_nat size in
  let k := if i <? 0 then i + n else i in
  if (0 <=? k) && (k <? n) then Ok (Z.to_nat k)
  else Raise (IndexError ("index " +:+ pretty i +:+ " is out of bounds for axis "
                          +:+ pretty axis +:+ " with size " +:+ pretty size)).

(** Broadcasting a sequence into a one-dimensional slice of length [n]. *)
Definition np_broadcast (vals : list Z) (n : nat) : result (list Z) :=
  if decide (length vals = n) then Ok vals
  else match vals with
       | [v] => Ok (replicate n v)
       | _ => Raise (ValueError ("could not broadcast input array from shape ("
                +:+ pretty (length vals) +:+ ",) into shape (" +:+ pretty n +:+ ",)"))
       end.

Definition write_row (vals : list Z) (row : list cell) : list cell :=
  zip_with cons vals row.

(** [idx_map[row, column] = vals] on an array of shape [(n, n)], where [None]
    stands for [slice(None)]. *)
Definition idx_map_setitem (n : nat) (row column : option Z) (vals : list Z)
    (g : grid) : result grid :=
  match row, column with
  | Some r, None =>
      i ← np_axis_index 0 n r;
      vs ← np_broadcast vals n;
      Ok (alter (write_row vs) i g)
  | None, Some k =>
      j ← np_axis_index 1 n k;
      vs ← np_broadcast vals n;
      Ok (zip_with (λ v, alter (cons v) j) vs g)
  | None, None =>
      vs ← np_broadcast vals n;
      Ok (write_row vs <$> g)
  | Some r, Some k =>
      i ← np_axis_index 0 n r;
      j ← np_axis_index 1 n k;
      match vals with
      | [v] => Ok (alter (alter (cons v) j) i g)
      | _ => Raise (ValueError "setting an array element with a sequence.")
      end
  end.

(** [idx_map[i]] and [row[j]]. *)
Definition idx_map_row (g : grid) (i : Z) : result (list cell) :=
  k ← np_axis_index 0 (length g) i;
  match g !! k with
  | Some row => Ok row
  | None => Raise (IndexError "index out of bounds")
  end.

Definition row_item (row : list cell) (j : Z) : result Z :=
  k ← np_axis_index 0 (length row) j;
  match row !! k with
  | Some h => Ok (content h)
  | None => Raise (IndexError "index out of bounds")
  end.

(** [np.arange(n)]. *)
Definition np_arange (n : Z) : list Z := seqZ 0 n.

(** [range(a, b)]. *)
Definition py_range (a b : Z) : list Z := seqZ a (b - a).

(** [l[:k]] and the contents of a sub-grid flattened row by row. *)
Definition slice_to {A} (k : Z) (l : list A) : list A :=
  if 0 <=? k then take (Z.to_nat k) l
  else take (length l - Z.to_nat (- k)) l.

Definition np_ravel (g : grid) : list Z := content <$> concat g.

(** [np.hstack] of five column vectors: one row per position. *)
Definition np_hstack5 (n c1 c2 c3 c4 : list Z) : result (list (list Z)) :=
  if bool_decide (length c1 = length n ∧ length c2 = length n
                  ∧ length c3 = length n ∧ length c4 = length n)
  then Ok (zip_with (λ a r, a :: r) n
            (zip_with (λ a r, a :: r) c1
              (zip_with (λ a r, a :: r) c2
                (zip_with (λ a b, [a; b]) c3 c4))))
  else Raise (ValueError "all the input array dimensions except for the concatenation axis must match exactly").

(** A statement loop in the error monad. *)
Fixpoint for_each {A S : Type} (l : list A) (body : A → S → result S) (s : S)
    : result S :=
  match l with
  | [] => Ok s
  | x :: l => s' ← body x s; for_each l body s'
  end.

(** ** bbox *)

(** The variables of [bbox] that its nested functions read and update. *)
Record state : Type := mkState {
  idx_map : grid;
  bbox_lons : list Q;
  bbox_lats : list Q;
  bbox_count : Z
}.

Definition set_idx_map (g : grid) (st : state) : state :=
  mkState g (bbox_lons st) (bbox_lats st) (bbox_count st).

(** [bbox_count = f(...)]: run a nested function and store what it returns. *)
Definition assign_bbox_count (r : result (Z * state)) : result state :=
  '(n, st) ← r;
  Ok (mkState (idx_map st) (bbox_lons st) (bbox_lats st) n).

Section bbox.
Context `{Collaborators}.

Definition bbox_extend (lons lats : ArrayLike) (st : state) : result (Z * state) :=
  match lons, lats with
  | array xs, array ys =>
      _ ← py_assert (bool_decide (length xs = length ys));
      Ok (bbox_count st + Z.of_nat (length xs),
          mkState (idx_map st) (bbox_lons st ++ xs) (bbox_lats st ++ ys)
            (bbox_count st))
  | _, _ => Raise (TypeError "object of type 'numpy.float64' has no len()")
  end.

(** The closure variables [c], [npts] and [geod] are arguments. *)
Definition bbox_update (c npts : Z) (geod : Geod) (idx1 idx2 : Z)
    (row column : option Z) (st : state) : result (Z * state) :=
  _ ← py_assert (bool_decide (is_Some row) || bool_decide (is_Some column));
  '(glons, glats) ← geodesic_by_idx (bbox_lons st) (bbox_lats st) idx1 idx2
                      npts false false false (Some geod);
  g ← idx_map_setitem (Z.to_nat (c + 1)) row column
        ([idx1] ++ (Z.add (bbox_count st) <$> np_arange npts) ++ [idx2])
        (idx_map st);
  bbox_extend (array glons) (array glats) (set_idx_map g st).

(** The argument checks at the head of [bbox]. *)
Definition bbox_validate (lons lats : list Q) : result unit :=
  let n_lons := length lons in
  let n_lats := length lats in
  if negb (bool_decide (n_lons = n_lats)) then
    Raise (ValueError ("Require the same number of longitudes (" +:+ pretty n_lons
             +:+ ") and latitudes (" +:+ pretty n_lats +:+ ")."))
  else if bool_decide (n_lons < 4)%nat then
    Raise (ValueError ("Require a bounded-box geometry containing at least 4 longitude/latitude "
             +:+ "values to create the bounded-box manifold, only got "
             +:+ pretty n_lons +:+ "."))
  else if bool_decide (5 < n_lons)%nat then
    Raise (ValueError ("Require a bounded-box geometry containing 4 (open) or 5 (closed) "
             +:+ "longitude/latitude values to create the bounded-box manifold, "
             +:+ "got " +:+ pretty n_lons +:+ "."))
  else Ok tt.

(** [# ensure the specified bbox geometry is open]. *)
Definition bbox_ensure_open (lons lats : list Q) : result (ArrayLike * ArrayLike) :=
  lon0 ← py_getitem lons 0;
  lonN ← py_getitem lons (-1);
  close ← (if np_isclose lon0 lonN
           then lat0 ← py_getitem lats 0;
                latN ← py_getitem lats (-1);
                Ok (np_isclose lat0 latN)
           else Ok false);
  if close : bool then
    lonN ← py_getitem lons (-1);
    latN ← py_getitem lats (-1);
    Ok (scalar lonN, scalar latN)
  else Ok (array lons, array lats).

(** [# register bbox edge indices, and points]. *)
Definition bbox_edges (c npts : Z) (geod : Geod) (lons lats : ArrayLike)
    (st : state) : result state :=
  let '(c1_idx, c2_idx, c3_idx, c4_idx) := (0, 1, 2, 3) in
  st ← assign_bbox_count (bbox_extend lons lats st);
  st ← assign_bbox_count (bbox_update c npts geod c1_idx c2_idx (Some 0) None st);
  st ← assign_bbox_count (bbox_update c npts geod c4_idx c3_idx (Some (-1)) None st);
  st ← assign_bbox_count (bbox_update c npts geod c1_idx c4_idx None (Some 0) st);
  assign_bbox_count (bbox_update c npts geod c2_idx c3_idx None (Some (-1)) st).

(** [# register bbox inner indices and points]. *)
Definition bbox_inner_row (c npts : Z) (geod : Geod) (row_idx : Z) (st : state)
    : result state :=
  row ← idx_map_row (idx_map st) row_idx;
  first ← row_item row 0;
  last ← row_item row (-1);
  assign_bbox_count (bbox_update c npts geod first last (Some row_idx) None st).

Definition bbox_inner (c npts : Z) (geod : Geod) (st : state) : result state :=
  for_each (py_range 1 c) (bbox_inner_row c npts geod) st.

(** [# generate the faces indices]. *)
Definition bbox_faces (c n_faces : Z) (g : grid) : result (list (list Z)) :=
  let N_faces := replicate (Z.to_nat n_faces) 4 in
  let faces_c1 := np_ravel (slice_to c <$> slice_to c g) in
  let faces_c2 := np_ravel (drop 1 <$> slice_to c g) in
  let faces_c3 := np_ravel (drop 1 <$> drop 1 g) in
  let faces_c4 := np_ravel (slice_to c <$> drop 1 g) in
  np_hstack5 N_faces faces_c1 faces_c2 faces_c3 faces_c4.

(** The index grid and vertex buffer of [bbox], up to face generation. *)
Definition bbox_grid (longitudes latitudes : ArrayLike) (ellps : string)
    (c : Z) : result state :=
  let lons := asanyarray longitudes in
  let lats := asanyarray latitudes in
  _ ← bbox_validate lons lats;
  '(lons, lats) ← bbox_ensure_open lons lats;
  idx_map ← np_empty (c + 1) (c + 1);
  geod ← pyproj_Geod ellps;
  let npts := c - 1 in
  st ← bbox_edges c npts geod lons lats (mkState idx_map [] [] 0);
  bbox_inner c npts geod st.

Definition bbox (longitudes latitudes : ArrayLike) (ellps : string)
    (radius : Q) (c : Z) (triangulate : bool) : result (PolyData XYZ) :=
  st ← bbox_grid longitudes latitudes ellps c;
  let n_faces := c * c in
  faces ← bbox_faces c n_faces (idx_map st);
  let xyz := to_xyz (bbox_lons st) (bbox_lats st) radius in
  let pdata := mkPolyData xyz faces n_faces in
  let pdata := if triangulate then PolyData_triangulate pdata else pdata in
  Ok pdata.
End bbox.

(** ** Vocabulary of the statements *)

(** [i] is a valid Python index into [l]. *)
Definition valid_index {A} (l : list A) (i : Z) : Prop :=
  - Z.of_nat (length l) ≤ i < Z.of_nat (length l).

(** The write history of cell [(i, j)], and the vertex index it holds. *)
Definition cell_at (g : grid) (i j : nat) : option cell :=
  row ← g !! i; row !! j.

Definition grid_index (g : grid) (i j : nat) : option Z :=
  content <$> cell_at g i j.

(** [g] has shape [(n, n)]. *)
Definition square (n : nat) (g : grid) : Prop :=
  length g = n ∧ ∀ i row, g !! i = Some row → length row = n.

(** [g] has shape [(n, n)] and each cell [(i, j)] satisfies [P i j]. *)
Definition grid_sat (n : nat) (P : nat → nat → cell → Prop) (g : grid) : Prop :=
  square n g ∧
  ∀ i j, (i < n)%nat → (j < n)%nat → ∃ h, cell_at g i j = Some h ∧ P i j h.

(** What [bbox] relies on from the geodesic reference: asked for [npts]
    points with both end points left out, it returns [npts] points. *)
Definition npts_exact `{Collaborators} (geod : Geod) : Prop :=
  ∀ lon1 lat1 lon2 lat2 npts radians pts,
    Geod_npts geod lon1 lat1 lon2 lat2 npts radians 1 1 = Ok pts →
    length pts = Z.to_nat npts.

(** The sequence [[idx1] + list(np.arange(npts) + count) + [idx2]] written
    along an edge of [c + 1] cells, by position. *)
Definition edge_value (idx1 idx2 count : Z) (c j : nat) : Z :=
  if decide (j = 0%nat) then idx1
  else if decide (j = c) then idx2
  else count + Z.of_nat j - 1.

(** How often cell [(i, j)] of a grid of shape [(c + 1, c + 1)] has been
    written after the first [u] calls of [bbox_update]: row 0, row [c],
    column 0, column [c], then the rows 1, 2, ... in turn. *)
Definition writes (c u i j : nat) : nat :=
  (Nat.b2n (bool_decide (1 ≤ u ∧ i = 0)) + Nat.b2n (bool_decide (2 ≤ u ∧ i = c))
   + Nat.b2n (bool_decide (0 < i < c ∧ i + 4 ≤ u))
   + Nat.b2n (bool_decide (3 ≤ u ∧ j = 0)) + Nat.b2n (bool_decide (4 ≤ u ∧ j = c)))%nat.

Definition is_corner (c i j : nat) : Prop :=
  (i = 0 ∨ i = c)%nat ∧ (j = 0 ∨ j = c)%nat.

(** The vertex index of grid position [(i, j)] when the vertex buffer starts
    with [n0] corner points and every edge contributes [c - 1] points. *)
Definition vertex_id (n0 : Z) (c i j : nat) : Z :=
  let step := Z.of_nat c - 1 in
  if decide (j = 0%nat) then edge_value 0 3 (n0 + 2 * step) c i
  else if decide (j = c) then edge_value 1 2 (n0 + 3 * step) c i
  else n0 + (if decide (i = 0%nat) then 0
             else if decide (i = c) then 1 else 3 + Z.of_nat i) * step
       + Z.of_nat j - 1.

(** The state of cell [(i, j)] after [u] calls of [bbox_update]: all its
    writes carried one value, which is the corner index at a corner and
    [vertex_id] whenever [K] holds; and its history extends the one it has
    in the grid [base]. *)
Definition cell_ok (K : Prop) (n0 : Z) (c u : nat) (base : grid)
    (i j : nat) (h : cell) : Prop :=
  (∃ v, h = replicate (writes c u i j) v ∧
        (K ∨ is_corner c i j → v = vertex_id n0 c i j)) ∧
  (∃ h0, cell_at base i j = Some h0 ∧ h0 `suffix_of` h).

(** The state of [bbox] after [u] calls of [bbox_update]. *)
Definition bbox_inv (K : Prop) (n0 : Z) (c u : nat) (base : grid)
    (st : state) : Prop :=
  grid_sat (S c) (cell_ok K n0 c u base) (idx_map st) ∧
  length (bbox_lons st) = length (bbox_lats st) ∧
  bbox_count st = Z.of_nat (length (bbox_lons st)) ∧
  (K → bbox_count st = n0 + Z.of_nat u * (Z.of_nat c - 1)).

(** A line of the grid (a row or a column, given cell by cell) was filled
    between the vertices [idx1] and [idx2]: when the vertex buffer held
    [lons0] and [lats0], which begin with [floor], [geodesic_by_idx] on these
    two indices gave [glons] and [glats]; the buffer of [st] holds them right
    after [lons0] and [lats0]; and the line holds [idx1], then the positions
    from [length lons0] on, then [idx2]. *)
Definition filled_between `{Collaborators} (geod : Geod) (c : nat) (st : state)
    (floor : list Q) (idx1 idx2 : Z) (line : nat → nat * nat) : Prop :=
  ∃ lons0 lats0 glons glats,
    floor `prefix_of` lons0 ∧
    (lons0 ++ glons) `prefix_of` bbox_lons st ∧
    (lats0 ++ glats) `prefix_of` bbox_lats st ∧
    length lons0 = length lats0 ∧
    geodesic_by_idx lons0 lats0 idx1 idx2 (Z.of_nat c - 1) false false false
      (Some geod) = Ok (glons, glats) ∧
    ∀ p, (p ≤ c)%nat →
      grid_index (idx_map st) (line p).1 (line p).2
      = Some (edge_value idx1 idx2 (Z.of_nat (length lons0)) c p).

(** Splitting a quad face into two triangles along one of its diagonals. *)
Definition split_quad (diag : bool) (face : list Z) : list (list Z) :=
  match face with
  | [_; a; b; c; d] =>
      if diag then [[3; a; b; c]; [3; a; c; d]] else [[3; a; b; d]; [3; b; c; d]]
  | _ => [face]
  end.

Definition is_quad (face : list Z) : Prop := ∃ a b c d, face = [4; a; b; c; d].

Definition is_triangle (face : list Z) : Prop := ∃ a b c, face = [3; a; b; c].

(** What [bbox] relies on from pyvista's [triangulate]: on a mesh of quads it
    keeps the points and replaces every quad by its two triangles along a
    diagonal chosen by the filter. *)
Definition triangulate_splits_quads `{Collaborators} : Prop :=
  ∀ m : PolyData XYZ, Forall is_quad (faces m) →
    points (PolyData_triangulate m) = points m ∧
    ∃ diags : list bool, length diags = length (faces m) ∧
      faces (PolyData_triangulate m) = concat (zip_with split_quad diags (faces m)).

(** ** An executable instance of the collaborators

    Used to run the code on concrete inputs. [planar_npts] follows the
    documented signature of [pyproj.Geod.npts]: it returns [npts] points,
    the end points being among them when [initial_idx] or [terminus_idx] is
    0; the points are interpolated linearly in (lon, lat). [isclose] is
    numpy's test [|a - b| <= atol + rtol * |b|] with its default tolerances.
    [fan_triangulate] splits a quad along the diagonal from its first
    vertex. *)

Definition planar_npts (lon1 lat1 lon2 lat2 : Q) (npts : Z) (radians : bool)
    (initial_idx terminus_idx : Z) : result (list (Q * Q)) :=
  let d := inject_Z (npts + initial_idx + terminus_idx - 1) in
  Ok ((λ i, let t := (inject_Z (i + initial_idx) / d)%Q in
            (Qred (lon1 + t * (lon2 - lon1)), Qred (lat1 + t * (lat2 - lat1))))
        <$> seqZ 0 npts).

(** An allocator with room for [2^31] cells. *)
Definition bounded_allocate (rows cols : Z) : result unit :=
  if rows * cols <=? 2 ^ 31 then Ok tt
  else Raise (MemoryError "Unable to allocate the array").

Definition isclose (a b : Q) : bool :=
  Qle_bool (Qabs (a - b)) ((1 # 100000000) + (1 # 100000) * Qabs b).

Definition fan_triangulate {P} (m : PolyData P) : PolyData P :=
  let fs := concat (split_quad true <$> faces m) in
  mkPolyData (points m) fs (Z.of_nat (length fs)).

#[local] Instance planar : Collaborators := {|
  Geod := string;
  pyproj_Geod := λ ellps, Ok ellps;
  Geod_npts := λ _, planar_npts;
  np_isclose := isclose;
  np_allocate := bounded_allocate;
  XYZ := Q * Q * Q;
  lonlat_to_xyz := λ lon lat radius, (lon, lat, radius);
  PolyData_triangulate := fan_triangulate
|}.

(** Concrete corner rings: a 10 by 10 degree box, open and closed. *)
Definition box_lons : list Q := [0; 10; 10; 0]%Q.
Definition box_lats : list Q := [0; 0; 10; 10]%Q.
Definition ring_lons : list Q := [0; 10; 10; 0; 0]%Q.
Definition ring_lats : list Q := [0; 0; 10; 10; 0]%Q.

(** The grid and the mesh of the open box for [c = 2], as computed by the
    code over the instance above. *)
Definition box_state : state :=
  Eval vm_compute in
    match bbox_grid (array box_lons) (array box_lats) "WGS84" 2 with
    | Ok st => st
    | Raise _ => mkState [] [] [] 0
    end.

Definition box_mesh : PolyData (Q * Q * Q) :=
  Eval vm_compute in
    match bbox (array box_lons) (array box_lats) "WGS84" (11 # 10) 2 false with
    | Ok m => m
    | Raise _ => mkPolyData [] [] 0
    end.

(** ** Further vocabulary *)

(** The test of [bbox] for a closed ring, on the first and last corner. *)
Definition ends_close `{Collaborators} (lons lats : list Q) : bool :=
  match head lons, last lons, head lats, last lats with
  | Some lon0, Some lonN, Some lat0, Some latN =>
      np_isclose lon0 lonN && np_isclose lat0 latN
  | _, _, _, _ => false
  end.

(** A longitude of the canonical range. *)
Definition wrapped (lon : Q) : Prop := (-180 <= lon)%Q ∧ (lon < 180)%Q.

(** The vertex indices of a face row. *)
Definition face_vertices (face : list Z) : list Z := drop 1 face.

(** The face array of a grid of shape [(c + 1, c + 1)] whose vertex indices
    are [vertex_id]: row [k] is the square at row [k / c], column [k mod c]. *)
Definition quad_faces (n0 : Z) (c : nat) : list (list Z) :=
  (λ k, let i := (k `div` c)%nat in
        let j := (k `mod` c)%nat in
        [4; vertex_id n0 c i j; vertex_id n0 c i (S j);
         vertex_id n0 c (S i) (S j); vertex_id n0 c (S i) j])
    <$> seq 0 (c * c).

(** A second executable instance: the ellipsoid must be known, and the
    reference refuses to interpolate fewer than one point. *)
Definition strict_Geod (ellps : string) : result string :=
  if bool_decide (ellps = "WGS84") then Ok ellps
  else Raise (ExternalError "invalid ellipsoid").

Definition strict_npts (lon1 lat1 lon2 lat2 : Q) (npts : Z) (radians : bool)
    (initial_idx terminus_idx : Z) : result (list (Q * Q)) :=
  if npts <=? 0 then Raise (ExternalError "npts must be positive")
  else planar_npts lon1 lat1 lon2 lat2 npts radians initial_idx terminus_idx.

Definition strict : Collaborators := {|
  Geod := string;
  pyproj_Geod := strict_Geod;
  Geod_npts := λ _, strict_npts;
  np_isclose := isclose;
  np_allocate := bounded_allocate;
  XYZ := Q * Q * Q;
  lonlat_to_xyz := λ lon lat radius, (lon, lat, radius);
  PolyData_triangulate := fan_triangulate
|}.

(** A 5-corner box whose last corner does not close the ring. *)
Definition open5_lons : list Q := [0; 10; 10; 0; 5]%Q.
Definition open5_lats : list Q := [0; 0; 10; 10; 20]%Q.

Definition open5_mesh : PolyData (Q * Q * Q) :=
  Eval vm_compute in
    match bbox (array open5_lons) (array open5_lats) "WGS84" (11 # 10) 3 false with
    | Ok m => m
    | Raise _ => mkPolyData [] [] 0
    end.

Definition box_mesh3 : PolyData (Q * Q * Q) :=
  Eval vm_compute in
    match bbox (array [20; 40; 40; 20]%Q) (array [-5; -5; 5; 5]%Q) "WGS84" 2 2 false with
    | Ok m => m
    | Raise _ => mkPolyData [] [] 0
    end.

(** A box across the antimeridian, given with longitudes up to 190. *)
Definition wide_lons : list Q := [170; 190; 190; 170]%Q.

Definition wide_state : state :=
  Eval vm_compute in
    match bbox_grid (array wide_lons) (array box_lats) "WGS84" 2 with
    | Ok st => st
    | Raise _ => mkState [] [] [] 0
    end.

(** ** geovista.samples: [capitalise]

    Titles are ASCII text here: a [string] is a sequence of characters below
    128, on which [str.upper] and [str.lower] only touch the letters a-z and
    A-Z. *)

Definition is_sep (c : ascii) : bool :=
  Ascii.eqb c "_" || Ascii.eqb c " ".

Definition upper_char (c : ascii) : ascii :=
  let n := nat_of_ascii c in
  if (97 <=? n)%nat && (n <=? 122)%nat then ascii_of_nat (n - 32) else c.

Definition lower_char (c : ascii) : ascii :=
  let n := nat_of_ascii c in
  if (65 <=? n)%nat && (n <=? 90)%nat then ascii_of_nat (n + 32) else c.

Fixpoint str_map (f : ascii → ascii) (s : string) : string :=
  match s with
  | EmptyString => EmptyString
  | String c s' => String (f c) (str_map f s')
  end.

(** [s.replace(old, new)] for single characters. *)
Definition str_replace (old new : ascii) (s : string) : string :=
  str_map (λ c, if Ascii.eqb c old then new else c) s.

(** [s.split(sep)] for a single character: the pieces between the
    occurrences of [sep], empty pieces included. *)
Fixpoint str_split (sep : ascii) (s : string) : list string :=
  match s with
  | EmptyString => [EmptyString]
  | String c s' =>
      if Ascii.eqb c sep then EmptyString :: str_split sep s'
      else match str_split sep s' with
           | w :: ws => String c w :: ws
           | [] => [String c EmptyString]
           end
  end.

(** [sep.join(words)]. *)
Fixpoint str_join (sep : string) (words : list string) : string :=
  match words with
  | [] => EmptyString
  | w :: rest =>
      match rest with
      | [] => w
      | _ :: _ => w +:+ sep +:+ str_join sep rest
      end
  end.

(** [word.capitalize()]: the first character in upper case, the others in
    lower case. *)
Definition str_capitalize (word : string) : string :=
  match word with
  | EmptyString => EmptyString
  | String c rest => String (upper_char c) (str_map lower_char rest)
  end.

Definition capitalise (title : string) : string :=
  let title := str_replace "_" " " title in
  let title := str_split " " title in
  str_join " " (str_capitalize <$> title).

(** Titles of ASCII characters. *)
Fixpoint is_ascii (s : string) : Prop :=
  match s with
  | EmptyString => True
  | String c s' => (nat_of_ascii c < 128)%nat ∧ is_ascii s'
  end.

(** One pass over a title: a separator becomes a space, a character at the
    start of a word goes to upper case, any other to lower case. *)
Fixpoint title_case (start : bool) (s : string) : string :=
  match s with
  | EmptyString => EmptyString
  | String c s' =>
      if is_sep c then String " " (title_case true s')
      else String (if start then upper_char c else lower_char c)
             (title_case false s')
  end.

(** [c in s]. *)
Fixpoint str_contains (c : ascii) (s : string) : bool :=
  match s with
  | EmptyString => false
  | String d s' => Ascii.eqb c d || str_contains c s'
  end.

(** ** Properties of [geodesic] and [geodesic_by_idx] *)

Lemma bind_Ok {A B} (m : result A) (f : A → result B) (b : B) :
  m ≫= f = Ok b ↔ ∃ a, m = Ok a ∧ f a = Ok b.
Proof.
  destruct m as [a|e]; simpl; split.
  - intros Hf. by exists a.
  - by intros (a' & [= <-] & Hf).
  - done.
  - by intros (a' & [=] & _).
Qed.

Lemma wrap1_range (lon : Q) : (-180 <= wrap1 lon)%Q ∧ (wrap1 lon < 180)%Q.
Proof.
  unfold wrap1.
  set (y := ((lon + 180) / 360)%Q).
  assert (Hy : (lon == 360 * y - 180)%Q) by (unfold y; field).
  pose proof (Qfloor_le y) as Hlo.
  pose proof (Qlt_floor y) as Hhi.
  rewrite inject_Z_plus in Hhi.
  change (inject_Z 1) with 1%Q in Hhi.
  split; rewrite Hy; lra.
Qed.

Example wrap1_185 : (wrap1 185 == -175)%Q.
Proof. reflexivity. Qed.

Lemma py_getitem_valid {A} (l : list A) (i : Z) :
  valid_index l i → ∃ x, py_getitem l i = Ok x.
Proof.
  unfold valid_index, py_getitem. intros Hi.
  set (k := if i <? 0 then i + Z.of_nat (length l) else i).
  assert (Hk : 0 ≤ k < Z.of_nat (length l)) by (unfold k; destruct (Z.ltb_spec i 0); lia).
  replace ((0 <=? k) && (k <? Z.of_nat (length l))) with true
    by (symmetry; apply andb_true_iff; split; [apply Z.leb_le|apply Z.ltb_lt]; lia).
  destruct (lookup_lt_is_Some_2 l (Z.to_nat k)) as [x Hx]; [lia|].
  rewrite Hx. by exists x.
Qed.

Section geodesic_facts.
Context `{Collaborators}.

(** C2: for equal-length longitude/latitude arrays and valid indices
    [i], [j], [geodesic_by_idx lons lats i j] resolves the four coordinates
    and returns exactly what [geodesic] returns on them, whatever the
    remaining arguments (an exception included). *)
Theorem geodesic_by_idx_is_geodesic (lons lats : list Q) (i j npts : Z)
    (radians include_start include_end : bool) (geod : option Geod) :
  length lons = length lats → valid_index lons i → valid_index lons j →
  ∃ start_lon start_lat end_lon end_lat,
    py_getitem lons i = Ok start_lon ∧ py_getitem lats i = Ok start_lat ∧
    py_getitem lons j = Ok end_lon ∧ py_getitem lats j = Ok end_lat ∧
    geodesic_by_idx lons lats i j npts radians include_start include_end geod
    = geodesic start_lon start_lat end_lon end_lat npts radians
        include_start include_end geod.
Proof.
  intros Hlen Hi Hj.
  destruct (py_getitem_valid lons i Hi) as [a Ha].
  destruct (py_getitem_valid lons j Hj) as [b Hb].
  unfold valid_index in Hi, Hj. rewrite Hlen in Hi, Hj.
  destruct (py_getitem_valid lats i Hi) as [a' Ha'].
  destruct (py_getitem_valid lats j Hj) as [b' Hb'].
  exists a, a', b, b'. repeat split; try done.
  unfold geodesic_by_idx. rewrite Ha, Ha', Hb, Hb'.
  unfold geodesic. destruct geod as [g|]; simpl; [done|].
  by destruct (pyproj_Geod MANIFOLD_ELLIPSE).
Qed.

Lemma geodesic_Ok start_lon start_lat end_lon end_lat npts radians
    (include_start include_end : bool) geod g pts :
  default_geod geod = Ok g →
  Geod_npts g start_lon start_lat end_lon end_lat npts radians
    (if include_start then 0 else 1) (if include_end then 0 else 1) = Ok pts →
  pts ≠ [] →
  geodesic start_lon start_lat end_lon end_lat npts radians include_start
    include_end geod = Ok (wrap (pts.*1), pts.*2).
Proof.
  intros Hg Hpts Hne. unfold geodesic. rewrite Hg. simpl. rewrite Hpts. simpl.
  by destruct pts.
Qed.

Lemma geodesic_inv start_lon start_lat end_lon end_lat npts radians
    (include_start include_end : bool) geod glons glats :
  geodesic start_lon start_lat end_lon end_lat npts radians include_start
    include_end geod = Ok (glons, glats) →
  ∃ g pts, default_geod geod = Ok g ∧
    Geod_npts g start_lon start_lat end_lon end_lat npts radians
      (if include_start then 0 else 1) (if include_end then 0 else 1) = Ok pts ∧
    pts ≠ [] ∧ glons = wrap (pts.*1) ∧ glats = pts.*2.
Proof.
  unfold geodesic. intros Hgeo.
  apply bind_Ok in Hgeo as (g & Hg & Hgeo).
  apply bind_Ok in Hgeo as (pts & Hpts & Hgeo).
  exists g, pts. destruct pts as [|p pts]; [done|].
  simpl in Hgeo. injection Hgeo as <- <-. done.
Qed.

(** C3, as amended: [geodesic] returns two sequences of equal length, and
    that length is the number of points the geodesic reference's [npts]
    returns for the forwarded [npts], with [initial_idx] 0 when
    [include_start] and 1 otherwise, and [terminus_idx] likewise;
    [geodesic] adds no point of its own for an inclusion flag. *)
Theorem geodesic_lengths start_lon start_lat end_lon end_lat npts radians
    (include_start include_end : bool) geod g pts :
  default_geod geod = Ok g →
  Geod_npts g start_lon start_lat end_lon end_lat npts radians
    (if include_start then 0 else 1) (if include_end then 0 else 1) = Ok pts →
  pts ≠ [] →
  ∃ glons glats,
    geodesic start_lon start_lat end_lon end_lat npts radians include_start
      include_end geod = Ok (glons, glats) ∧
    length glons = length pts ∧ length glats = length pts.
Proof.
  intros Hg Hpts Hne. eexists _, _. split; [by eapply geodesic_Ok|].
  unfold wrap. by rewrite !length_fmap.
Qed.

(** C4: every longitude returned by [geodesic] lies in the canonical wrap
    range [-180, 180), whatever the longitudes given or interpolated, and
    the returned latitudes are exactly those of the points produced by the
    geodesic reference. *)
Theorem geodesic_wraps_longitudes start_lon start_lat end_lon end_lat npts
    radians (include_start include_end : bool) geod g pts :
  default_geod geod = Ok g →
  Geod_npts g start_lon start_lat end_lon end_lat npts radians
    (if include_start then 0 else 1) (if include_end then 0 else 1) = Ok pts →
  pts ≠ [] →
  ∃ glons glats,
    geodesic start_lon start_lat end_lon end_lat npts radians include_start
      include_end geod = Ok (glons, glats) ∧
    Forall (λ lon, (-180 <= lon)%Q ∧ (lon < 180)%Q) glons ∧
    glats = pts.*2.
Proof.
  intros Hg Hpts Hne. eexists _, _. split; [by eapply geodesic_Ok|].
  split; [|done]. unfold wrap. apply Forall_fmap, Forall_forall.
  intros lon _. apply wrap1_range.
Qed.
End geodesic_facts.

(** ** Argument checks and the closed-ring reduction of [bbox] *)

Section bbox_checks.
Context `{Collaborators}.

Lemma bbox_grid_Raise longitudes latitudes ellps radius c triangulate e :
  bbox_grid longitudes latitudes ellps c = Raise e →
  bbox longitudes latitudes ellps radius c triangulate = Raise e.
Proof. unfold bbox. by intros ->. Qed.

Lemma bbox_validate_Raise longitudes latitudes ellps radius c triangulate e :
  bbox_validate (asanyarray longitudes) (asanyarray latitudes) = Raise e →
  bbox longitudes latitudes ellps radius c triangulate = Raise e.
Proof. intros He. apply bbox_grid_Raise. unfold bbox_grid. by rewrite He. Qed.

(** C5: [bbox] checks its arguments before it builds anything. Differing
    longitude and latitude counts raise the shape-mismatch error naming both
    counts, whatever the counts are; equal counts below 4 raise the
    insufficient-corners error naming the count; equal counts above 5 raise
    the open-or-closed error naming the count. In each case the call ends
    with that error, so no mesh is produced. *)
Theorem bbox_validates_first longitudes latitudes ellps radius c triangulate :
  let n_lons := length (asanyarray longitudes) in
  let n_lats := length (asanyarray latitudes) in
  (n_lons ≠ n_lats →
     bbox longitudes latitudes ellps radius c triangulate
     = Raise (ValueError ("Require the same number of longitudes (" +:+ pretty n_lons
                +:+ ") and latitudes (" +:+ pretty n_lats +:+ ")."))) ∧
  (n_lons = n_lats → (n_lons < 4)%nat →
     bbox longitudes latitudes ellps radius c triangulate
     = Raise (ValueError ("Require a bounded-box geometry containing at least 4 longitude/latitude "
                +:+ "values to create the bounded-box manifold, only got "
                +:+ pretty n_lons +:+ "."))) ∧
  (n_lons = n_lats → (5 < n_lons)%nat →
     bbox longitudes latitudes ellps radius c triangulate
     = Raise (ValueError ("Require a bounded-box geometry containing 4 (open) or 5 (closed) "
                +:+ "longitude/latitude values to create the bounded-box manifold, "
                +:+ "got " +:+ pretty n_lons +:+ "."))).
Proof.
  intros n_lons n_lats. repeat split.
  - intros Hne. apply bbox_validate_Raise. unfold bbox_validate.
    fold n_lons n_lats. by rewrite bool_decide_eq_false_2.
  - intros Heq Hlt. apply bbox_validate_Raise. unfold bbox_validate.
    fold n_lons n_lats. rewrite bool_decide_eq_true_2 by done. simpl.
    by rewrite bool_decide_eq_true_2.
  - intros Heq Hgt. apply bbox_validate_Raise. unfold bbox_validate.
    fold n_lons n_lats. rewrite bool_decide_eq_true_2 by done. simpl.
    rewrite bool_decide_eq_false_2 by lia.
    by rewrite bool_decide_eq_true_2.
Qed.

Lemma bbox_extend_scalar x y st :
  bbox_extend (scalar x) (scalar y) st
  = Raise (TypeError "object of type 'numpy.float64' has no len()").
Proof. done. Qed.

(** Once [lons] and [lats] are single numbers, no mesh is built. *)
Lemma bbox_scalar_raises longitudes latitudes ellps radius c triangulate x y :
  bbox_validate (asanyarray longitudes) (asanyarray latitudes) = Ok tt →
  bbox_ensure_open (asanyarray longitudes) (asanyarray latitudes)
    = Ok (scalar x, scalar y) →
  ∃ e, bbox longitudes latitudes ellps radius c triangulate = Raise e.
Proof.
  intros Hv Ho.
  assert (∃ e, bbox_grid longitudes latitudes ellps c = Raise e) as [e He];
    [|exists e; by apply bbox_grid_Raise].
  unfold bbox_grid. rewrite Hv, Ho. simpl.
  destruct (np_empty (c + 1) (c + 1)) as [g|e]; simpl; [|by eexists].
  destruct (pyproj_Geod ellps) as [geod|e]; simpl; [|by eexists].
  by eexists.
Qed.

(** C10: the reduction is triggered by closeness alone. With exactly 4
    corners whose first and last points are close on both axes, [bbox]
    replaces the longitude and latitude arrays by their last elements, two
    single numbers, and the call ends with an exception instead of the
    4-corner mesh. *)
Theorem bbox_four_close_corners (lon1 lon2 lon3 lon4 lat1 lat2 lat3 lat4 : Q)
    ellps radius c triangulate :
  np_isclose lon1 lon4 = true → np_isclose lat1 lat4 = true →
  bbox_ensure_open [lon1; lon2; lon3; lon4] [lat1; lat2; lat3; lat4]
    = Ok (scalar lon4, scalar lat4) ∧
  ∃ e, bbox (array [lon1; lon2; lon3; lon4]) (array [lat1; lat2; lat3; lat4])
         ellps radius c triangulate = Raise e.
Proof.
  intros Hlon Hlat.
  assert (Ho : bbox_ensure_open [lon1; lon2; lon3; lon4] [lat1; lat2; lat3; lat4]
               = Ok (scalar lon4, scalar lat4)).
  { unfold bbox_ensure_open. simpl. rewrite Hlon. simpl. by rewrite Hlat. }
  split; [done|]. by eapply bbox_scalar_raises.
Qed.
End bbox_checks.

Lemma geodesic_by_idx_is_geodesic_witness :
  ∃ start_lon start_lat end_lon end_lat,
    py_getitem box_lons 0 = Ok start_lon ∧ py_getitem box_lats 0 = Ok start_lat ∧
    py_getitem box_lons (-1) = Ok end_lon ∧ py_getitem box_lats (-1) = Ok end_lat ∧
    geodesic_by_idx box_lons box_lats 0 (-1) 3 false true false None
    = geodesic start_lon start_lat end_lon end_lat 3 false true false None.
Proof.
  apply (geodesic_by_idx_is_geodesic (H := planar)).
  - reflexivity.
  - unfold valid_index. simpl. lia.
  - unfold valid_index. simpl. lia.
Defined.

Lemma geodesic_lengths_witness :
  ∃ glons glats,
    geodesic 0 0 10 0 3 false true false None = Ok (glons, glats) ∧
    length glons = 3%nat ∧ length glats = 3%nat.
Proof.
  apply (geodesic_lengths (H := planar) 0 0 10 0 3 false true false None
           "WGS84" [(0, 0); (10 # 3, 0); (20 # 3, 0)]%Q).
  - reflexivity.
  - reflexivity.
  - discriminate.
Defined.

(** C3, as stated, fails: with the end points counted in [npts], as
    [pyproj.Geod.npts] documents, asking for 3 points with the start point
    included returns 3 points, not 4. *)
Lemma geodesic_length_counterexample :
  ∃ glons glats,
    geodesic 0 0 10 0 3 false true false None = Ok (glons, glats) ∧
    length glons = 3%nat ∧ length glats = 3%nat ∧
    Z.of_nat (length glons) ≠ 3 + 1.
Proof. eexists _, _. split; [reflexivity|]. simpl. repeat split; lia. Qed.

Lemma geodesic_wraps_longitudes_witness :
  ∃ glons glats,
    geodesic 170 0 190 0 3 false true true None = Ok (glons, glats) ∧
    Forall (λ lon, (-180 <= lon)%Q ∧ (lon < 180)%Q) glons ∧
    glats = [0; 0; 0]%Q.
Proof.
  apply (geodesic_wraps_longitudes (H := planar) 170 0 190 0 3 false true true None
           "WGS84" [(170, 0); (180, 0); (190, 0)]%Q).
  - reflexivity.
  - reflexivity.
  - discriminate.
Defined.

Lemma bbox_validates_first_witness :
  bbox (array box_lons) (array ring_lats) "WGS84" 1 2 false
  = Raise (ValueError "Require the same number of longitudes (4) and latitudes (5).") ∧
  bbox (array [0; 10; 10]%Q) (array [0; 0; 10]%Q) "WGS84" 1 2 false
  = Raise (ValueError "Require a bounded-box geometry containing at least 4 longitude/latitude values to create the bounded-box manifold, only got 3.") ∧
  bbox (array [0; 5; 10; 10; 0; 0]%Q) (array [0; 0; 0; 10; 10; 0]%Q) "WGS84" 1 2 false
  = Raise (ValueError "Require a bounded-box geometry containing 4 (open) or 5 (closed) longitude/latitude values to create the bounded-box manifold, got 6.").
Proof.
  split; [|split].
  - apply (proj1 (bbox_validates_first (H := planar) (array box_lons) (array ring_lats)
                    "WGS84" 1 2 false)).
    simpl. lia.
  - apply (proj1 (proj2 (bbox_validates_first (H := planar) (array [0; 10; 10]%Q)
                           (array [0; 0; 10]%Q) "WGS84" 1 2 false))).
    + reflexivity.
    + simpl. lia.
  - apply (proj2 (proj2 (bbox_validates_first (H := planar)
                           (array [0; 5; 10; 10; 0; 0]%Q)
                           (array [0; 0; 0; 10; 10; 0]%Q) "WGS84" 1 2 false))).
    + reflexivity.
    + simpl. lia.
Defined.

Lemma bbox_four_close_corners_witness :
  bbox_ensure_open [0; 10; 10; 0]%Q [5; 0; 10; 5]%Q = Ok (scalar 0%Q, scalar 5%Q) ∧
  ∃ e, bbox (array [0; 10; 10; 0]%Q) (array [5; 0; 10; 5]%Q) "WGS84" 1 2 false
       = Raise e.
Proof.
  apply (bbox_four_close_corners (H := planar)); vm_compute; reflexivity.
Defined.

(** C1 fails on the code: for the closed 5-corner ring the reduction keeps
    the last longitude and latitude ([lons[-1]], [lats[-1]]) instead of the
    first four corners, and the call raises; the 4-corner call on the same
    corners returns a mesh. *)
Theorem bbox_closed_ring_raises :
  bbox_ensure_open ring_lons ring_lats = Ok (scalar 0%Q, scalar 0%Q) ∧
  bbox (array ring_lons) (array ring_lats) "WGS84" (11 # 10) 2 false
  = Raise (TypeError "object of type 'numpy.float64' has no len()") ∧
  is_Ok (bbox (array (take 4 ring_lons)) (array (take 4 ring_lats)) "WGS84"
           (11 # 10) 2 false).
Proof.
  split; [vm_compute; reflexivity|].
  split; [vm_compute; reflexivity|].
  eexists. vm_compute. reflexivity.
Qed.

(** ** The index grid: shape and cell-wise reasoning *)

Lemma np_axis_index_Ok axis n r i :
  np_axis_index axis n r = Ok i →
  (i < n)%nat ∧ (r = Z.of_nat i ∨ r = Z.of_nat i - Z.of_nat n).
Proof.
  unfold np_axis_index.
  destruct (Z.ltb_spec r 0); case_match eqn:Hb; intros [= <-];
    apply andb_true_iff in Hb as [?%Z.leb_le ?%Z.ltb_lt]; lia.
Qed.

Lemma np_broadcast_Ok vals n vs :
  np_broadcast vals n = Ok vs → (2 ≤ length vals)%nat →
  vs = vals ∧ length vals = n.
Proof.
  unfold np_broadcast. case_decide; [by intros [= <-]|].
  destruct vals as [|v [|w vals]]; simpl; [lia|lia|done].
Qed.

Lemma grid_sat_square n P g : grid_sat n P g → square n g.
Proof. by intros [? _]. Qed.

Lemma grid_sat_impl n (P P' : nat → nat → cell → Prop) g :
  grid_sat n P g →
  (∀ i j h, (i < n)%nat → (j < n)%nat → cell_at g i j = Some h → P i j h → P' i j h) →
  grid_sat n P' g.
Proof.
  intros [Hsq Hc] Himp. split; [done|]. intros i j Hi Hj.
  destruct (Hc i j Hi Hj) as (h & Hh & HP). exists h. eauto.
Qed.

Lemma np_empty_sat `{Collaborators} rows g :
  np_empty rows rows = Ok g →
  0 ≤ rows ∧ grid_sat (Z.to_nat rows) (λ _ _ h, h = []) g.
Proof.
  unfold np_empty. destruct (Z.ltb_spec rows 0); simpl; [done|].
  intros (u & _ & [= <-])%bind_Ok. split; [done|]. split.
  - split; [by rewrite length_replicate|].
    intros i row [-> _]%lookup_replicate. by rewrite length_replicate.
  - intros i j Hi Hj. exists []. split; [|done]. unfold cell_at.
    rewrite lookup_replicate_2 by done. simpl. by rewrite lookup_replicate_2.
Qed.

Lemma setitem_row_sat n g r vals g' (P P' : nat → nat → cell → Prop) :
  idx_map_setitem n (Some r) None vals g = Ok g' →
  (2 ≤ length vals)%nat →
  grid_sat n P g →
  ∃ i, np_axis_index 0 n r = Ok i ∧ length vals = n ∧
    ((∀ j h v, (j < n)%nat → cell_at g i j = Some h → P i j h →
               vals !! j = Some v → P' i j (v :: h)) →
     (∀ i' j h, i' ≠ i → (i' < n)%nat → (j < n)%nat →
                cell_at g i' j = Some h → P i' j h → P' i' j h) →
     grid_sat n P' g').
Proof.
  unfold idx_map_setitem. intros Hset Hlen [[Hrows Hcols] Hc].
  apply bind_Ok in Hset as (i & Hi & Hset).
  apply bind_Ok in Hset as (vs & Hvs & [= <-]).
  apply np_broadcast_Ok in Hvs as [-> Hn]; [|done].
  exists i. do 2 (split; [done|]). intros Hon Hoff.
  apply np_axis_index_Ok in Hi as [Hi _].
  split.
  - split; [by rewrite length_alter|].
    intros i' row. rewrite list_lookup_alter. case_decide as Hii.
    + subst i'. destruct (g !! i) as [row0|] eqn:Hrow; simpl; [|done].
      intros [= <-]. unfold write_row. rewrite length_zip_with.
      rewrite (Hcols _ _ Hrow). lia.
    + apply Hcols.
  - intros i' j Hi' Hj. destruct (Hc i' j Hi' Hj) as (h & Hh & HP).
    unfold cell_at in *. rewrite list_lookup_alter. case_decide as Hii.
    + subst i'. destruct (g !! i) as [row0|] eqn:Hrow; simpl in *; [|done].
      unfold write_row. rewrite lookup_zip_with, Hh.
      destruct (lookup_lt_is_Some_2 vals j) as [v Hv]; [lia|].
      rewrite Hv. simpl. exists (v :: h). split; [done|].
      apply Hon; try done; by rewrite ?Hrow.
    + exists h. split; [done|]. apply Hoff; try done; by intros ->.
Qed.

Lemma setitem_col_sat n g k vals g' (P P' : nat → nat → cell → Prop) :
  idx_map_setitem n None (Some k) vals g = Ok g' →
  (2 ≤ length vals)%nat →
  grid_sat n P g →
  ∃ j, np_axis_index 1 n k = Ok j ∧ length vals = n ∧
    ((∀ i h v, (i < n)%nat → cell_at g i j = Some h → P i j h →
               vals !! i = Some v → P' i j (v :: h)) →
     (∀ i j' h, j' ≠ j → (i < n)%nat → (j' < n)%nat →
                cell_at g i j' = Some h → P i j' h → P' i j' h) →
     grid_sat n P' g').
Proof.
  unfold idx_map_setitem. intros Hset Hlen [[Hrows Hcols] Hc].
  apply bind_Ok in Hset as (j & Hj & Hset).
  apply bind_Ok in Hset as (vs & Hvs & [= <-]).
  apply np_broadcast_Ok in Hvs as [-> Hn]; [|done].
  exists j. do 2 (split; [done|]). intros Hon Hoff.
  apply np_axis_index_Ok in Hj as [Hj _].
  split.
  - split; [rewrite length_zip_with; lia|].
    intros i row. rewrite lookup_zip_with.
    destruct (vals !! i) as [v|]; simpl; [|done].
    destruct (g !! i) as [row0|] eqn:Hrow; simpl; [|done].
    intros [= <-]. rewrite length_alter. by eapply Hcols.
  - intros i j' Hi Hj'. destruct (Hc i j' Hi Hj') as (h & Hh & HP).
    unfold cell_at in *. rewrite lookup_zip_with.
    destruct (lookup_lt_is_Some_2 vals i) as [v Hv]; [lia|].
    rewrite Hv. simpl.
    destruct (g !! i) as [row0|] eqn:Hrow; simpl in *; [|done].
    rewrite list_lookup_alter. case_decide as Hjj.
    + subst j'. rewrite Hh. simpl. exists (v :: h). split; [done|].
      apply Hon; try done; by rewrite ?Hrow.
    + exists h. split; [done|]. apply Hoff; try done; try (by intros ->).
      by rewrite ?Hrow.
Qed.

Lemma edge_lookup idx1 idx2 count (c j : nat) v :
  (1 ≤ c)%nat →
  ([idx1] ++ (Z.add count <$> np_arange (Z.of_nat c - 1)) ++ [idx2]) !! j = Some v →
  v = edge_value idx1 idx2 count c j.
Proof.
  intros Hc. unfold np_arange, edge_value. rewrite fmap_add_seqZ.
  destruct j as [|j]; simpl; [by intros [= <-]|].
  rewrite lookup_app_Some, lookup_seqZ, length_seqZ.
  intros [[-> Hj]|[Hj Hv]].
  - rewrite decide_False by lia. lia.
  - apply list_lookup_singleton_Some in Hv as [Hv <-].
    rewrite decide_True by lia. done.
Qed.

Lemma edge_length idx1 idx2 count (npts : Z) :
  length ([idx1] ++ (Z.add count <$> np_arange npts) ++ [idx2])
  = S (S (Z.to_nat npts)).
Proof.
  unfold np_arange. simpl. rewrite length_app, length_fmap, length_seqZ. simpl. lia.
Qed.

(** ** One call of [bbox_update] *)

Section bbox_update_facts.
Context `{Collaborators}.

Lemma geodesic_by_idx_lengths lons lats i j npts geod glons glats :
  geodesic_by_idx lons lats i j npts false false false (Some geod)
    = Ok (glons, glats) →
  length glons = length glats ∧
  (npts_exact geod → length glons = Z.to_nat npts).
Proof.
  unfold geodesic_by_idx. simpl. intros Hg.
  apply bind_Ok in Hg as (a & _ & Hg). apply bind_Ok in Hg as (a' & _ & Hg).
  apply bind_Ok in Hg as (b & _ & Hg). apply bind_Ok in Hg as (b' & _ & Hg).
  apply geodesic_inv in Hg as (g & pts & [= <-] & Hpts & _ & -> & ->).
  unfold wrap. rewrite !length_fmap. split; [done|].
  intros Hexact. by eapply Hexact.
Qed.

Lemma bbox_update_inv c npts geod idx1 idx2 row column st st' :
  assign_bbox_count (bbox_update c npts geod idx1 idx2 row column st) = Ok st' →
  ∃ glons glats g',
    geodesic_by_idx (bbox_lons st) (bbox_lats st) idx1 idx2 npts
      false false false (Some geod) = Ok (glons, glats) ∧
    idx_map_setitem (Z.to_nat (c + 1)) row column
      ([idx1] ++ (Z.add (bbox_count st) <$> np_arange npts) ++ [idx2])
      (idx_map st) = Ok g' ∧
    st' = mkState g' (bbox_lons st ++ glons) (bbox_lats st ++ glats)
            (bbox_count st + Z.of_nat (length glons)).
Proof.
  unfold assign_bbox_count, bbox_update. intros Hu.
  apply bind_Ok in Hu as ([n st1] & Hu & [= <-]).
  apply bind_Ok in Hu as (_ & _ & Hu).
  apply bind_Ok in Hu as ([glons glats] & Hgeo & Hu).
  apply bind_Ok in Hu as (g' & Hset & Hu).
  exists glons, glats, g'. do 2 (split; [done|]).
  unfold bbox_extend in Hu.
  apply bind_Ok in Hu as (_ & _ & [= <- <-]). done.
Qed.

Lemma cell_ok_write K n0 c u u' base i j h val :
  cell_ok K n0 c u base i j h →
  writes c u' i j = S (writes c u i j) →
  (∀ v, h = replicate (writes c u i j) v →
        (K ∨ is_corner c i j → v = vertex_id n0 c i j) →
        ((0 < writes c u i j)%nat → val = v) ∧
        (K ∨ is_corner c i j → val = vertex_id n0 c i j)) →
  cell_ok K n0 c u' base i j (val :: h).
Proof.
  intros [(v & Hh & Hv) (h0 & Hh0 & Hsuf)] Hw Hval.
  destruct (Hval v Hh Hv) as [Hsame Hid].
  split; [|exists h0; split; [done|by apply suffix_cons_r]].
  exists val. split; [|done]. rewrite Hw. simpl. f_equal.
  destruct (writes c u i j) as [|w] eqn:Hwr; [by subst h|].
  rewrite Hh. by rewrite Hsame by lia.
Qed.

Lemma cell_ok_keep K n0 c u u' base i j h :
  cell_ok K n0 c u base i j h →
  writes c u' i j = writes c u i j →
  cell_ok K n0 c u' base i j h.
Proof. unfold cell_ok. by intros ? ->. Qed.

Section step.
Variables (K : Prop) (n0 : Z) (c u : nat) (base : grid) (geod : Geod).
Variables (idx1 idx2 : Z) (st st' : state).
Hypothesis c_pos : (1 ≤ c)%nat.
Hypothesis K_exact : K → npts_exact geod.
Hypothesis inv : bbox_inv K n0 c u base st.

Lemma update_state_inv g' glons glats :
  geodesic_by_idx (bbox_lons st) (bbox_lats st) idx1 idx2 (Z.of_nat c - 1)
    false false false (Some geod) = Ok (glons, glats) →
  grid_sat (S c) (cell_ok K n0 c (S u) base) g' →
  bbox_inv K n0 c (S u) base
    (mkState g' (bbox_lons st ++ glons) (bbox_lats st ++ glats)
       (bbox_count st + Z.of_nat (length glons))).
Proof using c_pos K_exact inv.
  intros [Hlen Hex]%geodesic_by_idx_lengths Hg'.
  destruct inv as (_ & Hl & Hcount & HK).
  split; [done|]. simpl. rewrite !length_app. repeat split; [lia|lia|].
  intros HK'. rewrite (Hex (K_exact HK')), (HK HK'). lia.
Qed.

Lemma update_row_step r i :
  assign_bbox_count (bbox_update (Z.of_nat c) (Z.of_nat c - 1) geod idx1 idx2
                       (Some r) None st) = Ok st' →
  (r = Z.of_nat i ∨ r = Z.of_nat i - Z.of_nat (S c)) → (i ≤ c)%nat →
  (∀ i' j, (i' ≤ c)%nat → (j ≤ c)%nat →
     writes c (S u) i' j
     = (writes c u i' j + (if decide (i' = i) then 1 else 0))%nat) →
  (∀ j h v, (j ≤ c)%nat → cell_at (idx_map st) i j = Some h →
     h = replicate (writes c u i j) v →
     (K ∨ is_corner c i j → v = vertex_id n0 c i j) →
     ((0 < writes c u i j)%nat → edge_value idx1 idx2 (bbox_count st) c j = v) ∧
     (K ∨ is_corner c i j →
      edge_value idx1 idx2 (bbox_count st) c j = vertex_id n0 c i j)) →
  bbox_inv K n0 c (S u) base st'.
Proof using c_pos K_exact inv.
  intros (glons & glats & g' & Hgeo & Hset & ->)%bbox_update_inv Hr Hi Hw Hval.
  eapply update_state_inv; [done|].
  replace (Z.to_nat (Z.of_nat c + 1)) with (S c) in Hset by lia.
  destruct inv as (Hsat & _).
  destruct (setitem_row_sat _ _ _ _ _ (cell_ok K n0 c u base)
              (cell_ok K n0 c (S u) base) Hset)
    as (i' & Hi' & _ & Hsat'); [rewrite edge_length; lia|done|].
  apply np_axis_index_Ok in Hi' as [Hi'1 Hi'2].
  assert (i' = i) as -> by lia.
  apply Hsat'.
  - intros j h v Hj Hcell Hok Hv. apply edge_lookup in Hv as ->; [|done].
    eapply cell_ok_write; [done| |].
    + rewrite Hw by lia. rewrite decide_True by done. lia.
    + intros v0 Hh Hv0. apply (Hval j h v0); [lia|done..].
  - intros i'' j h Hne Hi'' Hj _ Hok. eapply cell_ok_keep; [done|].
    rewrite Hw by lia. rewrite decide_False by done. lia.
Qed.

Lemma update_col_step k j :
  assign_bbox_count (bbox_update (Z.of_nat c) (Z.of_nat c - 1) geod idx1 idx2
                       None (Some k) st) = Ok st' →
  (k = Z.of_nat j ∨ k = Z.of_nat j - Z.of_nat (S c)) → (j ≤ c)%nat →
  (∀ i j', (i ≤ c)%nat → (j' ≤ c)%nat →
     writes c (S u) i j'
     = (writes c u i j' + (if decide (j' = j) then 1 else 0))%nat) →
  (∀ i h v, (i ≤ c)%nat → cell_at (idx_map st) i j = Some h →
     h = replicate (writes c u i j) v →
     (K ∨ is_corner c i j → v = vertex_id n0 c i j) →
     ((0 < writes c u i j)%nat → edge_value idx1 idx2 (bbox_count st) c i = v) ∧
     (K ∨ is_corner c i j →
      edge_value idx1 idx2 (bbox_count st) c i = vertex_id n0 c i j)) →
  bbox_inv K n0 c (S u) base st'.
Proof using c_pos K_exact inv.
  intros (glons & glats & g' & Hgeo & Hset & ->)%bbox_update_inv Hk Hj Hw Hval.
  eapply update_state_inv; [done|].
  replace (Z.to_nat (Z.of_nat c + 1)) with (S c) in Hset by lia.
  destruct inv as (Hsat & _).
  destruct (setitem_col_sat _ _ _ _ _ (cell_ok K n0 c u base)
              (cell_ok K n0 c (S u) base) Hset)
    as (j' & Hj' & _ & Hsat'); [rewrite edge_length; lia|done|].
  apply np_axis_index_Ok in Hj' as [Hj'1 Hj'2].
  assert (j' = j) as -> by lia.
  apply Hsat'.
  - intros i h v Hi Hcell Hok Hv. apply edge_lookup in Hv as ->; [|done].
    eapply cell_ok_write; [done| |].
    + rewrite Hw by lia. rewrite decide_True by done. lia.
    + intros v0 Hh Hv0. apply (Hval i h v0); [lia|done..].
  - intros i j'' h Hne Hi Hj'' _ Hok. eapply cell_ok_keep; [done|].
    rewrite Hw by lia. rewrite decide_False by done. lia.
Qed.
End step.
End bbox_update_facts.

(** ** Filling the grid: the four edges, then the inner rows *)

Lemma for_each_seqZ {S : Type} (I : Z → S → Prop) (body : Z → S → result S)
    (a n : Z) (s s' : S) :
  (∀ i t t', a ≤ i < a + n → I i t → body i t = Ok t' → I (i + 1) t') →
  0 ≤ n → I a s → for_each (seqZ a n) body s = Ok s' → I (a + n) s'.
Proof.
  intros Hstep Hn Ha. remember (Z.to_nat n) as k eqn:Hk.
  revert a n s Hstep Hn Ha Hk.
  induction k as [|k IH]; intros a n s Hstep Hn Ha Hk.
  - assert (n = 0) as -> by lia. simpl. intros [= <-]. by rewrite Z.add_0_r.
  - rewrite seqZ_cons by lia. simpl. intros (t & Hb & Hrest)%bind_Ok.
    replace (a + n) with (Z.succ a + Z.pred n) by lia.
    eapply (IH (Z.succ a) (Z.pred n) t); [|lia| |lia|done].
    + intros i u u' Hi. apply Hstep. lia.
    + eapply (Hstep a); [lia|done..].
Qed.

Ltac solve_writes :=
  intros; unfold writes in *;
  repeat (case_bool_decide; try (exfalso; lia));
  repeat (case_decide; try (exfalso; lia));
  simpl in *; lia.

Ltac solve_vertex :=
  unfold vertex_id, edge_value; simpl; repeat case_decide; lia.

Section bbox_grid_facts.
Context `{Collaborators}.

Lemma bbox_extend_arrays xs ys st st' :
  assign_bbox_count (bbox_extend (array xs) (array ys) st) = Ok st' →
  length xs = length ys ∧
  st' = mkState (idx_map st) (bbox_lons st ++ xs) (bbox_lats st ++ ys)
          (bbox_count st + Z.of_nat (length xs)).
Proof.
  unfold assign_bbox_count, bbox_extend.
  intros ([n st1] & Hu & [= <-])%bind_Ok.
  apply bind_Ok in Hu as (u & Ha & [= <- <-]).
  unfold py_assert in Ha. case_bool_decide; done.
Qed.

Lemma first_update_c_pos c geod idx1 idx2 r st st' P :
  assign_bbox_count (bbox_update c (c - 1) geod idx1 idx2 (Some r) None st)
    = Ok st' →
  grid_sat (Z.to_nat (c + 1)) P (idx_map st) → 1 ≤ c.
Proof.
  intros (glons & glats & g' & _ & Hset & _)%bbox_update_inv Hsat.
  destruct (setitem_row_sat _ _ _ _ _ P P Hset) as (i & _ & Hlen & _);
    [rewrite edge_length; lia|done|].
  rewrite edge_length in Hlen. lia.
Qed.

Lemma bbox_inv_start K c xs ys g0 :
  length xs = length ys →
  grid_sat (S c) (λ _ _ h, h = []) g0 →
  bbox_inv K (Z.of_nat (length xs)) c 0 g0
    (mkState g0 ([] ++ xs) ([] ++ ys) (0 + Z.of_nat (length xs))).
Proof.
  intros Hlen Hsat. split; [|simpl; repeat split; lia].
  eapply grid_sat_impl; [done|]. simpl. intros i j h Hi Hj Hcell ->.
  split; [|by exists []].
  exists (vertex_id (Z.of_nat (length xs)) c i j). split; [|done].
  replace (writes c 0 i j) with 0%nat; [done|solve_writes].
Qed.

Lemma bbox_edges_inv K c geod xs ys g0 st :
  (K → npts_exact geod) →
  grid_sat (Z.to_nat (c + 1)) (λ _ _ h, h = []) g0 →
  bbox_edges c (c - 1) geod (array xs) (array ys) (mkState g0 [] [] 0) = Ok st →
  1 ≤ c ∧ length xs = length ys ∧
  bbox_inv K (Z.of_nat (length xs)) (Z.to_nat c) 4 g0 st.
Proof.
  intros HK Hsat. unfold bbox_edges.
  intros (st0 & [Hlen ->]%bbox_extend_arrays & Hrest)%bind_Ok. simpl in Hrest.
  apply bind_Ok in Hrest as (st1 & Hu1 & Hrest).
  assert (Hc : 1 ≤ c) by (eapply first_update_c_pos; [exact Hu1|exact Hsat]).
  do 2 (split; [done|]).
  set (cn := Z.to_nat c). set (n0 := Z.of_nat (length xs)).
  replace c with (Z.of_nat cn) in * by lia.
  replace (Z.to_nat (Z.of_nat cn + 1)) with (S cn) in Hsat by lia.
  assert (Hcn : (1 ≤ cn)%nat) by lia.
  pose proof (bbox_inv_start K cn xs ys g0 Hlen Hsat) as I0. fold n0 in I0.
  assert (I1 : bbox_inv K n0 cn 1 g0 st1).
  { pose proof I0 as (_ & _ & _ & Hcount).
    eapply (update_row_step K n0 cn 0 g0 geod 0 1 _ st1 Hcn HK I0 0 0%nat);
      [exact Hu1|lia|lia|solve_writes|].
    intros j h v Hj _ _ _.
    split; [intros Hw; exfalso; revert Hw; solve_writes|].
    intros [HK'|Hcor]; [rewrite (Hcount HK')|unfold is_corner in Hcor];
      solve_vertex. }
  apply bind_Ok in Hrest as (st2 & Hu2 & Hrest).
  assert (I2 : bbox_inv K n0 cn 2 g0 st2).
  { pose proof I1 as (_ & _ & _ & Hcount).
    eapply (update_row_step K n0 cn 1 g0 geod 3 2 _ st2 Hcn HK I1 (-1) cn);
      [exact Hu2|lia|lia|solve_writes|].
    intros j h v Hj _ _ _.
    split; [intros Hw; exfalso; revert Hw; solve_writes|].
    intros [HK'|Hcor]; [rewrite (Hcount HK')|unfold is_corner in Hcor];
      solve_vertex. }
  apply bind_Ok in Hrest as (st3 & Hu3 & Hu4).
  assert (I3 : bbox_inv K n0 cn 3 g0 st3).
  { pose proof I2 as (_ & _ & _ & Hcount).
    eapply (update_col_step K n0 cn 2 g0 geod 0 3 _ st3 Hcn HK I2 0 0%nat);
      [exact Hu3|lia|lia|solve_writes|].
    intros i h v Hi _ _ Hv.
    assert (Hcases : writes cn 2 i 0 = 0%nat ∨ is_corner cn i 0)
      by (unfold is_corner; solve_writes).
    split.
    - intros Hw. destruct Hcases as [?|Hcor]; [lia|].
      rewrite (Hv (or_intror Hcor)). unfold is_corner in Hcor. solve_vertex.
    - intros [HK'|Hcor]; [rewrite (Hcount HK')|unfold is_corner in Hcor];
        solve_vertex. }
  pose proof I3 as (_ & _ & _ & Hcount).
  eapply (update_col_step K n0 cn 3 g0 geod 1 2 _ st Hcn HK I3 (-1) cn);
    [exact Hu4|lia|lia|solve_writes|].
  intros i h v Hi _ _ Hv.
  assert (Hcases : writes cn 3 i cn = 0%nat ∨ is_corner cn i cn)
    by (unfold is_corner; solve_writes).
  split.
  - intros Hw. destruct Hcases as [?|Hcor]; [lia|].
    rewrite (Hv (or_intror Hcor)). unfold is_corner in Hcor. solve_vertex.
  - intros [HK'|Hcor]; [rewrite (Hcount HK')|unfold is_corner in Hcor];
      solve_vertex.
Qed.
Lemma idx_map_row_Ok g i row :
  idx_map_row g (Z.of_nat i) = Ok row → g !! i = Some row.
Proof.
  unfold idx_map_row. intros (k & Hk & Hrow)%bind_Ok.
  apply np_axis_index_Ok in Hk as [Hk1 Hk2].
  assert (k = i) as -> by lia.
  destruct (g !! i) as [row0|]; [|done]. by injection Hrow as <-.
Qed.

Lemma row_item_Ok row r v :
  row_item row r = Ok v →
  ∃ k h, row !! k = Some h ∧ v = content h ∧
         (r = Z.of_nat k ∨ r = Z.of_nat k - Z.of_nat (length row)).
Proof.
  unfold row_item. intros (k & Hk & Hrow)%bind_Ok.
  apply np_axis_index_Ok in Hk as [Hk1 Hk2].
  destruct (row !! k) as [h|] eqn:Hh; [|done].
  injection Hrow as <-. by exists k, h.
Qed.

Lemma bbox_inner_row_inv K n0 c base geod (i : nat) st st' :
  (1 ≤ c)%nat → (K → npts_exact geod) → (1 ≤ i < c)%nat →
  bbox_inv K n0 c (3 + i) base st →
  bbox_inner_row (Z.of_nat c) (Z.of_nat c - 1) geod (Z.of_nat i) st = Ok st' →
  bbox_inv K n0 c (3 + S i) base st'.
Proof.
  intros Hc HK Hi I. unfold bbox_inner_row.
  intros (row & Hrow%idx_map_row_Ok & Hrest)%bind_Ok.
  apply bind_Ok in Hrest as (first & Hfirst & Hrest).
  apply bind_Ok in Hrest as (last & Hlast & Hupd).
  pose proof I as ([[_ Hcols] _] & _ & _ & Hcount).
  pose proof (Hcols _ _ Hrow) as Hlen.
  apply row_item_Ok in Hfirst as (k1 & h1 & Hh1 & -> & Hk1).
  apply row_item_Ok in Hlast as (k2 & h2 & Hh2 & -> & Hk2).
  pose proof (lookup_lt_Some _ _ _ Hh1). pose proof (lookup_lt_Some _ _ _ Hh2).
  assert (k1 = 0%nat) as -> by lia. assert (k2 = c) as -> by lia.
  change (3 + S i)%nat with (S (3 + S i - 1))%nat.
  replace (3 + S i - 1)%nat with (3 + i)%nat by lia.
  eapply (update_row_step K n0 c (3 + i) base geod _ _ st st' Hc HK I
            (Z.of_nat i) i); [exact Hupd|lia|lia|solve_writes|].
  intros j h v Hj Hcell Hh Hv.
  unfold cell_at in Hcell. rewrite Hrow in Hcell. simpl in Hcell.
  destruct (decide (j = 0%nat)) as [->|Hj0];
    [|destruct (decide (j = c)) as [->|Hjc]].
  - assert (h = h1) as <- by congruence.
    assert (Hw : writes c (3 + i) i 0 = 1%nat) by solve_writes.
    rewrite Hw in Hh |- *. subst h. simpl in *.
    assert (Hval : edge_value v (content h2) (bbox_count st) c 0 = v)
      by (unfold edge_value; by rewrite decide_True).
    rewrite Hval. split; [done|apply Hv].
  - assert (h = h2) as <- by congruence.
    assert (Hw : writes c (3 + i) i c = 1%nat) by solve_writes.
    rewrite Hw in Hh |- *. subst h. simpl in *.
    assert (Hval : edge_value (content h1) v (bbox_count st) c c = v).
    { unfold edge_value. rewrite decide_False by lia. by rewrite decide_True. }
    rewrite Hval. split; [done|apply Hv].
  - assert (Hw : writes c (3 + i) i j = 0%nat) by solve_writes.
    rewrite Hw. split; [lia|].
    intros [HK'|Hcor]; [|unfold is_corner in Hcor; lia].
    rewrite (Hcount HK'). unfold vertex_id, edge_value.
    repeat (rewrite decide_False by lia). lia.
Qed.

Lemma bbox_inner_inv K n0 c base geod st st' :
  (1 ≤ c)%nat → (K → npts_exact geod) →
  bbox_inv K n0 c 4 base st →
  bbox_inner (Z.of_nat c) (Z.of_nat c - 1) geod st = Ok st' →
  bbox_inv K n0 c (c + 3) base st'.
Proof.
  intros Hc HK I. unfold bbox_inner, py_range. intros Hloop.
  pose (J := λ (z : Z) (t : state),
         ∃ i : nat, z = Z.of_nat i ∧ bbox_inv K n0 c (3 + i) base t).
  destruct (for_each_seqZ J (bbox_inner_row (Z.of_nat c) (Z.of_nat c - 1) geod)
              1 (Z.of_nat c - 1) st st') as (i & Hi & I');
    [|lia|by exists 1%nat|exact Hloop|].
  - intros z t t' Hz (i & -> & It) Hbody. exists (S i). split; [lia|].
    eapply bbox_inner_row_inv; [done|done|lia|done|done].
  - replace (c + 3)%nat with (3 + i)%nat by lia. done.
Qed.

Lemma bbox_inv_rebase K n0 c u base st :
  bbox_inv K n0 c u base st → bbox_inv K n0 c u (idx_map st) st.
Proof.
  intros (Hsat & Hrest). split; [|done].
  eapply grid_sat_impl; [done|]. intros i j h _ _ Hcell [Hok _].
  split; [done|]. by exists h.
Qed.

Lemma bbox_validate_Ok (lons lats : list Q) :
  bbox_validate lons lats = Ok tt →
  length lons = length lats ∧ (4 ≤ length lons ≤ 5)%nat.
Proof.
  unfold bbox_validate. repeat case_bool_decide; simpl; try done. lia.
Qed.

Lemma bbox_ensure_open_Ok lons lats (a b : ArrayLike) :
  bbox_ensure_open lons lats = Ok (a, b) →
  (a = array lons ∧ b = array lats) ∨ (∃ x y, a = scalar x ∧ b = scalar y).
Proof.
  unfold bbox_ensure_open.
  intros (lon0 & _ & (lonN & _ & (close & _ & Hrest)%bind_Ok)%bind_Ok)%bind_Ok.
  destruct close.
  - apply bind_Ok in Hrest as (x & _ & (y & _ & [= <- <-])%bind_Ok).
    right. by exists x, y.
  - injection Hrest as <- <-. by left.
Qed.

(** The two phases of the grid construction and what holds after each. *)
Lemma bbox_grid_inv (K : Prop) longitudes latitudes ellps c st :
  (∀ geod, pyproj_Geod ellps = Ok geod → K → npts_exact geod) →
  bbox_grid longitudes latitudes ellps c = Ok st →
  ∃ geod g0 st_e,
    let lons := asanyarray longitudes in
    let lats := asanyarray latitudes in
    let n0 := Z.of_nat (length lons) in
    length lons = length lats ∧ (4 ≤ length lons ≤ 5)%nat ∧ 1 ≤ c ∧
    pyproj_Geod ellps = Ok geod ∧
    bbox_edges c (c - 1) geod (array lons) (array lats) (mkState g0 [] [] 0)
      = Ok st_e ∧
    bbox_inner c (c - 1) geod st_e = Ok st ∧
    bbox_inv K n0 (Z.to_nat c) 4 g0 st_e ∧
    bbox_inv K n0 (Z.to_nat c) (Z.to_nat c + 3) (idx_map st_e) st.
Proof.
  intros HK. unfold bbox_grid.
  intros ([] & [Hlen Hn]%bbox_validate_Ok & Hrest)%bind_Ok.
  apply bind_Ok in Hrest as ([a b] & Hopen & Hrest).
  apply bind_Ok in Hrest as (g0 & [Hc0 Hg0]%np_empty_sat & Hrest).
  apply bind_Ok in Hrest as (geod & Hgeod & Hrest).
  apply bind_Ok in Hrest as (st_e & Hedges & Hinner).
  apply bbox_ensure_open_Ok in Hopen as [[-> ->]|(x & y & -> & ->)];
    [|by unfold bbox_edges in Hedges].
  destruct (bbox_edges_inv K c geod _ _ g0 st_e (HK geod Hgeod) Hg0 Hedges)
    as (Hc & _ & Ie).
  exists geod, g0, st_e. simpl. repeat (split; [done|]).
  apply bbox_inv_rebase in Ie as Ie'.
  replace c with (Z.of_nat (Z.to_nat c)) in Hinner by lia.
  eapply bbox_inner_inv; [lia|by apply HK|exact Ie'|exact Hinner].
Qed.
End bbox_grid_facts.

(** ** Face generation *)

Lemma lookup_concat_uniform {A} (rows : list (list A)) (m i j : nat) :
  Forall (λ r, length r = m) rows → (j < m)%nat →
  concat rows !! (i * m + j)%nat = rows !! i ≫= (.!! j).
Proof.
  intros Hrows Hj. revert i. induction Hrows as [|r rows Hr _ IH]; intros i.
  - done.
  - destruct i as [|i]; simpl.
    + rewrite lookup_app_l by lia. done.
    + rewrite lookup_app_r by lia. rewrite <- IH. f_equal. lia.
Qed.

Lemma length_concat_uniform {A} (rows : list (list A)) (m : nat) :
  Forall (λ r, length r = m) rows → length (concat rows) = (length rows * m)%nat.
Proof.
  induction 1 as [|r rows Hr _ IH]; simpl; [done|].
  rewrite length_app. lia.
Qed.

Lemma slice_to_take {A} (n : nat) (l : list A) : slice_to (Z.of_nat n) l = take n l.
Proof.
  unfold slice_to. destruct (Z.leb_spec 0 (Z.of_nat n)); [|lia].
  by rewrite Nat2Z.id.
Qed.

Lemma ravel_sub (g rows : grid) (fc : list cell → list cell) (c di dj : nat) :
  square (S c) g → length rows = c →
  (∀ i, (i < c)%nat → rows !! i = g !! (i + di)%nat) →
  (∀ l : list cell, length l = S c →
     length (fc l) = c ∧ ∀ j, (j < c)%nat → fc l !! j = l !! (j + dj)%nat) →
  length (np_ravel (fc <$> rows)) = (c * c)%nat ∧
  ∀ i j, (i < c)%nat → (j < c)%nat →
    np_ravel (fc <$> rows) !! (i * c + j)%nat = grid_index g (i + di) (j + dj).
Proof.
  intros [Hlen Hcols] Hrows Hsel Hfc.
  assert (Hall : Forall (λ r, length r = c) (fc <$> rows)).
  { apply Forall_fmap, Forall_lookup. intros i row Hrow. simpl.
    pose proof (lookup_lt_Some _ _ _ Hrow) as Hi.
    rewrite Hsel in Hrow by lia. by apply Hfc, (Hcols _ _ Hrow). }
  unfold np_ravel. split.
  - rewrite length_fmap, (length_concat_uniform _ c Hall), length_fmap. lia.
  - intros i j Hi Hj. rewrite list_lookup_fmap, (lookup_concat_uniform _ c) by done.
    unfold grid_index, cell_at. rewrite list_lookup_fmap, Hsel by done.
    destruct (g !! (i + di)%nat) as [row|] eqn:Hrow; simpl; [|done].
    by rewrite (proj2 (Hfc row (Hcols _ _ Hrow))).
Qed.

Lemma take_sel {A} (c : nat) (l : list A) :
  length l = S c →
  length (take c l) = c ∧ ∀ j, (j < c)%nat → take c l !! j = l !! (j + 0)%nat.
Proof.
  intros Hl. split; [rewrite length_take; lia|].
  intros j Hj. rewrite lookup_take_lt by done. f_equal. lia.
Qed.

Lemma drop_sel {A} (c : nat) (l : list A) :
  length l = S c →
  length (drop 1 l) = c ∧ ∀ j, (j < c)%nat → drop 1 l !! j = l !! (j + 1)%nat.
Proof.
  intros Hl. split; [rewrite length_drop; lia|].
  intros j Hj. rewrite lookup_drop. f_equal. lia.
Qed.

Lemma square_index (c : nat) (g : grid) (i j : nat) :
  square (S c) g → (i ≤ c)%nat → (j ≤ c)%nat → is_Some (grid_index g i j).
Proof.
  intros [Hlen Hcols] Hi Hj. unfold grid_index, cell_at.
  destruct (lookup_lt_is_Some_2 g i) as [row Hrow]; [lia|].
  rewrite Hrow. simpl.
  destruct (lookup_lt_is_Some_2 row j) as [h Hh]; [rewrite (Hcols _ _ Hrow); lia|].
  rewrite Hh. by eexists.
Qed.

(** The face array: one row per grid square, row-major, each listing the
    vertex count 4 and the four corners of the square. *)
Lemma bbox_faces_spec (c : nat) (g : grid) :
  square (S c) g →
  ∃ fs, bbox_faces (Z.of_nat c) (Z.of_nat c * Z.of_nat c) g = Ok fs ∧
    length fs = (c * c)%nat ∧
    ∀ i j, (i < c)%nat → (j < c)%nat →
      ∃ v1 v2 v3 v4,
        grid_index g i j = Some v1 ∧ grid_index g i (S j) = Some v2 ∧
        grid_index g (S i) (S j) = Some v3 ∧ grid_index g (S i) j = Some v4 ∧
        fs !! (i * c + j)%nat = Some [4; v1; v2; v3; v4].
Proof.
  intros Hsq. pose proof Hsq as [Hlen Hcols].
  unfold bbox_faces. rewrite !slice_to_take.
  rewrite !(list_fmap_ext (slice_to (Z.of_nat c)) (take c))
    by (intros; apply slice_to_take).
  destruct (take_sel c g Hlen) as [Ht Hts].
  destruct (drop_sel c g Hlen) as [Hd Hds].
  destruct (ravel_sub g (take c g) (take c) c 0 0 Hsq Ht Hts (take_sel c)) as [L1 F1].
  destruct (ravel_sub g (take c g) (drop 1) c 0 1 Hsq Ht Hts (drop_sel c)) as [L2 F2].
  destruct (ravel_sub g (drop 1 g) (drop 1) c 1 1 Hsq Hd Hds (drop_sel c)) as [L3 F3].
  destruct (ravel_sub g (drop 1 g) (take c) c 1 0 Hsq Hd Hds (take_sel c)) as [L4 F4].
  unfold np_hstack5. rewrite length_replicate.
  replace (Z.to_nat (Z.of_nat c * Z.of_nat c)) with (c * c)%nat by lia.
  rewrite bool_decide_eq_true_2 by (rewrite L1, L2, L3, L4; done).
  eexists. split; [done|]. split.
  - rewrite !length_zip_with, length_replicate, L1, L2, L3, L4. lia.
  - intros i j Hi Hj.
    destruct (square_index c g i j Hsq) as [v1 Hv1]; [lia..|].
    destruct (square_index c g i (S j) Hsq) as [v2 Hv2]; [lia..|].
    destruct (square_index c g (S i) (S j) Hsq) as [v3 Hv3]; [lia..|].
    destruct (square_index c g (S i) j Hsq) as [v4 Hv4]; [lia..|].
    exists v1, v2, v3, v4. do 4 (split; [done|]).
    rewrite !lookup_zip_with.
    rewrite lookup_replicate_2 by nia.
    rewrite F1, F2, F3, F4 by done.
    replace (i + 0)%nat with i by lia. replace (j + 0)%nat with j by lia.
    replace (i + 1)%nat with (S i) by lia. replace (j + 1)%nat with (S j) by lia.
    by rewrite Hv1, Hv2, Hv3, Hv4.
Qed.

(** ** The vertex indices of the finished grid *)

Lemma writes_final (c i j : nat) :
  (1 ≤ c)%nat → (i ≤ c)%nat → (j ≤ c)%nat →
  writes c (c + 3) i j = if decide (j = 0 ∨ j = c)%nat then 2%nat else 1%nat.
Proof. solve_writes. Qed.

Lemma writes_edges (c i j : nat) :
  (1 ≤ c)%nat → (i ≤ c)%nat → (j ≤ c)%nat →
  (0 < writes c 4 i j)%nat ↔ (i = 0 ∨ i = c ∨ j = 0 ∨ j = c)%nat.
Proof. solve_writes. Qed.

Lemma vertex_id_bound (n0 : Z) (c i j : nat) :
  4 ≤ n0 → (1 ≤ c)%nat → (i ≤ c)%nat → (j ≤ c)%nat →
  0 ≤ vertex_id n0 c i j < n0 + (Z.of_nat c + 3) * (Z.of_nat c - 1).
Proof.
  intros Hn Hc Hi Hj. unfold vertex_id, edge_value. simpl.
  repeat case_decide; nia.
Qed.

Lemma vertex_id_inj (n0 : Z) (c i j i' j' : nat) :
  4 ≤ n0 → (1 ≤ c)%nat → (i ≤ c)%nat → (j ≤ c)%nat → (i' ≤ c)%nat → (j' ≤ c)%nat →
  vertex_id n0 c i j = vertex_id n0 c i' j' → i = i' ∧ j = j'.
Proof.
  intros Hn Hc Hi Hj Hi' Hj'. unfold vertex_id, edge_value. simpl.
  repeat case_decide; try nia.
  intros Heq.
  assert (i = i') as <-
    by (destruct (Z.lt_trichotomy (Z.of_nat i) (Z.of_nat i')) as [?|[?|?]]; nia).
  lia.
Qed.

Section bbox_mesh_facts.
Context `{Collaborators}.

Lemma bbox_update_prefix c npts geod idx1 idx2 row column st st' :
  assign_bbox_count (bbox_update c npts geod idx1 idx2 row column st) = Ok st' →
  bbox_lons st `prefix_of` bbox_lons st' ∧ bbox_lats st `prefix_of` bbox_lats st'.
Proof.
  intros (glons & glats & g' & _ & _ & ->)%bbox_update_inv. simpl.
  split; by apply prefix_app_r.
Qed.

Lemma bbox_buffer_prefix c geod xs ys g0 st_e st :
  bbox_edges c (c - 1) geod (array xs) (array ys) (mkState g0 [] [] 0) = Ok st_e →
  bbox_inner c (c - 1) geod st_e = Ok st →
  xs `prefix_of` bbox_lons st ∧ ys `prefix_of` bbox_lats st.
Proof.
  unfold bbox_edges.
  intros (st0 & [_ ->]%bbox_extend_arrays & Hrest)%bind_Ok Hinner. simpl in Hrest.
  apply bind_Ok in Hrest as (st1 & [L1 A1]%bbox_update_prefix & Hrest).
  apply bind_Ok in Hrest as (st2 & [L2 A2]%bbox_update_prefix & Hrest).
  apply bind_Ok in Hrest as (st3 & [L3 A3]%bbox_update_prefix & Hrest).
  apply bbox_update_prefix in Hrest as [L4 A4]. simpl in L1, A1.
  assert (He : xs `prefix_of` bbox_lons st_e ∧ ys `prefix_of` bbox_lats st_e)
    by (split; repeat (etrans; [eassumption|]); done).
  unfold bbox_inner, py_range in Hinner.
  destruct (Z.le_gt_cases 1 c) as [Hc|Hc];
    [|by rewrite seqZ_nil in Hinner by lia; injection Hinner as <-].
  replace c with (1 + (c - 1)) at 1 by lia.
  eapply (for_each_seqZ
            (λ _ t, xs `prefix_of` bbox_lons t ∧ ys `prefix_of` bbox_lats t)
            (bbox_inner_row c (c - 1) geod) 1 (c - 1) st_e st);
    [|lia|done|done].
  intros i t t' _ [Hl Ha]. unfold bbox_inner_row.
  intros (row & _ & (first & _ & (last & _ & [Hl' Ha']%bbox_update_prefix
            )%bind_Ok)%bind_Ok)%bind_Ok.
  split; by etrans.
Qed.

(** What [bbox] returns, in terms of the grid and the face array. *)
Lemma bbox_Ok longitudes latitudes ellps radius c triangulate mesh :
  bbox longitudes latitudes ellps radius c triangulate = Ok mesh →
  ∃ st fs,
    bbox_grid longitudes latitudes ellps c = Ok st ∧
    bbox_faces c (c * c) (idx_map st) = Ok fs ∧
    mesh = (let pdata := mkPolyData (to_xyz (bbox_lons st) (bbox_lats st) radius)
                           fs (c * c) in
            if triangulate then PolyData_triangulate pdata else pdata).
Proof.
  unfold bbox. intros (st & Hst & (fs & Hfs & [= <-])%bind_Ok)%bind_Ok.
  by exists st, fs.
Qed.

Lemma final_cell K n0 c base st (i j : nat) :
  (1 ≤ c)%nat → bbox_inv K n0 c (c + 3) base st → (i ≤ c)%nat → (j ≤ c)%nat →
  ∃ v h0,
    cell_at (idx_map st) i j
      = Some (replicate (if decide (j = 0 ∨ j = c)%nat then 2 else 1)%nat v) ∧
    (K ∨ is_corner c i j → v = vertex_id n0 c i j) ∧
    cell_at base i j = Some h0 ∧
    h0 `suffix_of` replicate (if decide (j = 0 ∨ j = c)%nat then 2 else 1)%nat v.
Proof.
  intros Hc ([_ Hcells] & _) Hi Hj.
  destruct (Hcells i j) as (h & Hh & (v & -> & Hv) & (h0 & Hh0 & Hsuf)); [lia..|].
  rewrite writes_final in Hh, Hsuf by done. by exists v, h0.
Qed.

Lemma final_index K n0 c base st (i j : nat) :
  (1 ≤ c)%nat → bbox_inv K n0 c (c + 3) base st → (i ≤ c)%nat → (j ≤ c)%nat →
  K ∨ is_corner c i j →
  grid_index (idx_map st) i j = Some (vertex_id n0 c i j).
Proof.
  intros Hc I Hi Hj HK.
  destruct (final_cell K n0 c base st i j Hc I Hi Hj) as (v & h0 & Hh & Hv & _).
  unfold grid_index. rewrite Hh, (Hv HK). by case_decide.
Qed.

(** C6: the face array of a successful [bbox] call with subdivision factor
    [c] has one row per pair (i, j) of [0, c) x [0, c), at position
    [i * c + j], and that row lists, after the vertex count 4, the vertex
    indices held by the IndexGrid at (i, j), (i, j+1), (i+1, j+1), (i+1, j),
    in this order. It is the face list of the returned mesh when no
    triangulation is asked for. *)
Theorem bbox_faces_enumerate_grid longitudes latitudes ellps radius c
    triangulate mesh :
  bbox longitudes latitudes ellps radius c triangulate = Ok mesh →
  ∃ st fs (cn : nat),
    c = Z.of_nat cn ∧
    bbox_grid longitudes latitudes ellps c = Ok st ∧
    bbox_faces c (c * c) (idx_map st) = Ok fs ∧
    (triangulate = false → faces mesh = fs) ∧
    length fs = (cn * cn)%nat ∧
    ∀ i j, (i < cn)%nat → (j < cn)%nat →
      ∃ v1 v2 v3 v4,
        grid_index (idx_map st) i j = Some v1 ∧
        grid_index (idx_map st) i (S j) = Some v2 ∧
        grid_index (idx_map st) (S i) (S j) = Some v3 ∧
        grid_index (idx_map st) (S i) j = Some v4 ∧
        fs !! (i * cn + j)%nat = Some [4; v1; v2; v3; v4].
Proof.
  intros (st & fs & Hst & Hfs & ->)%bbox_Ok.
  destruct (bbox_grid_inv False _ _ _ _ _ ltac:(done) Hst)
    as (geod & g0 & st_e & _ & _ & Hc & _ & _ & _ & _ & I). simpl in I.
  exists st, fs, (Z.to_nat c).
  destruct I as ([Hsq _] & _).
  destruct (bbox_faces_spec (Z.to_nat c) (idx_map st) Hsq) as (fs' & Hfs' & Hlen & Hrows).
  replace (Z.of_nat (Z.to_nat c)) with c in Hfs' by lia.
  assert (fs' = fs) as -> by congruence.
  split; [lia|]. do 2 (split; [done|]).
  split; [by intros ->|]. done.
Qed.

Lemma bbox_faces_quads c st fs longitudes latitudes ellps :
  bbox_grid longitudes latitudes ellps c = Ok st →
  bbox_faces c (c * c) (idx_map st) = Ok fs →
  Forall is_quad fs ∧ Z.of_nat (length fs) = c * c.
Proof.
  intros Hst Hfs.
  destruct (bbox_grid_inv False _ _ _ _ _ ltac:(done) Hst)
    as (geod & g0 & st_e & _ & _ & Hc & _ & _ & _ & _ & I). simpl in I.
  destruct I as ([Hsq _] & _).
  destruct (bbox_faces_spec (Z.to_nat c) (idx_map st) Hsq) as (fs' & Hfs' & Hlen & Hrows).
  replace (Z.of_nat (Z.to_nat c)) with c in Hfs' by lia.
  assert (fs' = fs) as -> by congruence.
  split; [|lia]. apply Forall_lookup. intros k face Hface.
  pose proof (lookup_lt_Some _ _ _ Hface) as Hk. rewrite Hlen in Hk.
  set (cn := Z.to_nat c) in *.
  assert (Hcn : (cn ≠ 0)%nat) by lia.
  pose proof (Nat.div_mod_eq k cn) as Hdm.
  pose proof (Nat.mod_upper_bound k cn Hcn) as Hmod.
  assert (Hdiv : (k `div` cn < cn)%nat) by (apply Nat.Div0.div_lt_upper_bound; lia).
  destruct (Hrows (k `div` cn)%nat (k `mod` cn)%nat Hdiv Hmod)
    as (v1 & v2 & v3 & v4 & _ & _ & _ & _ & Hrow).
  replace (k `div` cn * cn + k `mod` cn)%nat with k in Hrow by lia.
  assert (face = [4; v1; v2; v3; v4]) as -> by congruence.
  by exists v1, v2, v3, v4.
Qed.
End bbox_mesh_facts.

Lemma split_quads_triangles (diags : list bool) (fs : list (list Z)) :
  Forall is_quad fs → length diags = length fs →
  length (concat (zip_with split_quad diags fs)) = (2 * length fs)%nat ∧
  Forall is_triangle (concat (zip_with split_quad diags fs)).
Proof.
  intros Hq. revert diags. induction Hq as [|f fs (a & b & c & d & ->) _ IH];
    intros [|diag diags] Hlen; simplify_eq/=; [done|].
  destruct (IH diags) as [IHl IHt]; [done|].
  split.
  - destruct diag; simpl; lia.
  - destruct diag; simpl; repeat (apply Forall_cons; split); try done;
      by eexists _, _, _.
Qed.

Lemma suffix_singleton_pair {A} (x y : A) : [x] `suffix_of` [y; y] → x = y.
Proof.
  intros [k Hk]. destruct k as [|a [|b k]]; simplify_eq/=; [done|].
  by destruct k.
Qed.

(** ** Which points each fill interpolates *)

Section bbox_segments.
Context `{Collaborators}.

Lemma bbox_inv_grid_any (K : Prop) n0 c u base s :
  bbox_inv K n0 c u base s → grid_sat (S c) (λ _ _ _, True) (idx_map s).
Proof. intros (Hsat & _). by eapply grid_sat_impl. Qed.

Lemma update_content_row (c : nat) geod idx1 idx2 r (i : nat) s s' :
  (1 ≤ c)%nat → grid_sat (S c) (λ _ _ _, True) (idx_map s) →
  assign_bbox_count (bbox_update (Z.of_nat c) (Z.of_nat c - 1) geod idx1 idx2
                       (Some r) None s) = Ok s' →
  (r = Z.of_nat i ∨ r = Z.of_nat i - Z.of_nat (S c)) → (i ≤ c)%nat →
  ∀ p, (p ≤ c)%nat →
    grid_index (idx_map s') i p = Some (edge_value idx1 idx2 (bbox_count s) c p).
Proof.
  intros Hc Hsat (glons & glats & g' & _ & Hset & ->)%bbox_update_inv Hr Hi p Hp.
  simpl. replace (Z.to_nat (Z.of_nat c + 1)) with (S c) in Hset by lia.
  destruct (setitem_row_sat _ _ _ _ _ (λ _ _ _, True)
              (λ i' j h, i' = i → content h = edge_value idx1 idx2 (bbox_count s) c j)
              Hset) as (i' & Hi' & _ & Hsat'); [rewrite edge_length; lia|done|].
  apply np_axis_index_Ok in Hi' as [Hi'1 Hi'2]. assert (i' = i) as -> by lia.
  destruct Hsat' as [_ Hcells].
  - intros j h v _ _ _ Hv _. by apply edge_lookup in Hv as ->.
  - intros i' j h Hne _ _ _ _ Heq. done.
  - destruct (Hcells i p) as (h & Hh & Hcont); [lia..|].
    unfold grid_index. rewrite Hh. simpl. by rewrite Hcont.
Qed.

Lemma update_content_col (c : nat) geod idx1 idx2 k (j : nat) s s' :
  (1 ≤ c)%nat → grid_sat (S c) (λ _ _ _, True) (idx_map s) →
  assign_bbox_count (bbox_update (Z.of_nat c) (Z.of_nat c - 1) geod idx1 idx2
                       None (Some k) s) = Ok s' →
  (k = Z.of_nat j ∨ k = Z.of_nat j - Z.of_nat (S c)) → (j ≤ c)%nat →
  ∀ p, (p ≤ c)%nat →
    grid_index (idx_map s') p j = Some (edge_value idx1 idx2 (bbox_count s) c p).
Proof.
  intros Hc Hsat (glons & glats & g' & _ & Hset & ->)%bbox_update_inv Hk Hj p Hp.
  simpl. replace (Z.to_nat (Z.of_nat c + 1)) with (S c) in Hset by lia.
  destruct (setitem_col_sat _ _ _ _ _ (λ _ _ _, True)
              (λ i j' h, j' = j → content h = edge_value idx1 idx2 (bbox_count s) c i)
              Hset) as (j' & Hj' & _ & Hsat'); [rewrite edge_length; lia|done|].
  apply np_axis_index_Ok in Hj' as [Hj'1 Hj'2]. assert (j' = j) as -> by lia.
  destruct Hsat' as [_ Hcells].
  - intros i h v _ _ _ Hv _. by apply edge_lookup in Hv as ->.
  - intros i j' h Hne _ _ _ _ Heq. done.
  - destruct (Hcells p j) as (h & Hh & Hcont); [lia..|].
    unfold grid_index. rewrite Hh. simpl. by rewrite Hcont.
Qed.

(** The fill just made. *)
Lemma fresh_segment (K : Prop) n0 (c u : nat) base geod idx1 idx2 row column s s' floor
    (line : nat → nat * nat) :
  bbox_inv K n0 c u base s →
  assign_bbox_count (bbox_update (Z.of_nat c) (Z.of_nat c - 1) geod idx1 idx2
                       row column s) = Ok s' →
  floor `prefix_of` bbox_lons s →
  (∀ p, (p ≤ c)%nat →
     grid_index (idx_map s') (line p).1 (line p).2
     = Some (edge_value idx1 idx2 (bbox_count s) c p)) →
  filled_between geod c s' floor idx1 idx2 line.
Proof.
  intros (_ & Hlen & Hcount & _) Hupd Hfloor Hline.
  pose proof Hupd as (glons & glats & g' & Hgeo & _ & Hs')%bbox_update_inv.
  exists (bbox_lons s), (bbox_lats s), glons, glats.
  split; [done|]. rewrite Hs' at 1 2. simpl. do 2 (split; [done|]).
  split; [done|]. split; [done|].
  intros p Hp. rewrite <- Hcount. by apply Hline.
Qed.

(** A written cell keeps its content. *)
Lemma content_stable (K : Prop) n0 (c u u' : nat) base s s' (i j : nat) :
  bbox_inv K n0 c u base s → bbox_inv K n0 c u' (idx_map s) s' →
  (i ≤ c)%nat → (j ≤ c)%nat → (0 < writes c u i j)%nat →
  grid_index (idx_map s') i j = grid_index (idx_map s) i j.
Proof.
  intros ([_ Hcells] & _) ([_ Hcells'] & _) Hi Hj Hw.
  destruct (Hcells i j) as (h & Hh & (v & -> & _) & _); [lia..|].
  destruct (Hcells' i j) as (h' & Hh' & (v' & -> & _) & (h0 & Hh0 & [k Hk])); [lia..|].
  rewrite Hh in Hh0. injection Hh0 as <-.
  unfold grid_index. rewrite Hh, Hh'. simpl. f_equal.
  destruct (writes c u i j) as [|w]; [lia|]. simpl in *.
  assert (Hin : v ∈ replicate (writes c u' i j) v').
  { rewrite Hk. apply elem_of_app. right. apply elem_of_cons. by left. }
  apply elem_of_replicate in Hin as [-> _].
  destruct (writes c u' i j); [by destruct k|done].
Qed.

Lemma segment_transfer geod (c : nat) s s' floor idx1 idx2 (line : nat → nat * nat) :
  filled_between geod c s floor idx1 idx2 line →
  bbox_lons s `prefix_of` bbox_lons s' → bbox_lats s `prefix_of` bbox_lats s' →
  (∀ p, (p ≤ c)%nat →
     grid_index (idx_map s') (line p).1 (line p).2
     = grid_index (idx_map s) (line p).1 (line p).2) →
  filled_between geod c s' floor idx1 idx2 line.
Proof.
  intros (lons0 & lats0 & glons & glats & Hf & Hl & Ha & Hlen & Hgeo & Hline)
    Hpl Hpa Hsame.
  exists lons0, lats0, glons, glats. split; [done|].
  split; [by etrans|]. split; [by etrans|]. do 2 (split; [done|]).
  intros p Hp. rewrite Hsame by done. by apply Hline.
Qed.

Section edge_steps.
Variables (K : Prop) (n0 : Z) (c : nat) (base : grid) (geod : Geod).
Hypothesis c_pos : (1 ≤ c)%nat.
Hypothesis K_exact : K → npts_exact geod.

Lemma edge_step_top s s' :
  bbox_inv K n0 c 0 base s →
  assign_bbox_count (bbox_update (Z.of_nat c) (Z.of_nat c - 1) geod 0 1
                       (Some 0) None s) = Ok s' →
  bbox_inv K n0 c 1 base s'.
Proof using c_pos K_exact.
  intros I0 Hu. pose proof I0 as (_ & _ & _ & Hcount).
  eapply (update_row_step K n0 c 0 base geod 0 1 s s' c_pos K_exact I0 0 0%nat);
    [exact Hu|lia|lia|solve_writes|].
  intros j h v Hj _ _ _.
  split; [intros Hw; exfalso; revert Hw; solve_writes|].
  intros [HK'|Hcor]; [rewrite (Hcount HK')|unfold is_corner in Hcor]; solve_vertex.
Qed.

Lemma edge_step_bottom s s' :
  bbox_inv K n0 c 1 base s →
  assign_bbox_count (bbox_update (Z.of_nat c) (Z.of_nat c - 1) geod 3 2
                       (Some (-1)) None s) = Ok s' →
  bbox_inv K n0 c 2 base s'.
Proof using c_pos K_exact.
  intros I1 Hu. pose proof I1 as (_ & _ & _ & Hcount).
  eapply (update_row_step K n0 c 1 base geod 3 2 s s' c_pos K_exact I1 (-1) c);
    [exact Hu|lia|lia|solve_writes|].
  intros j h v Hj _ _ _.
  split; [intros Hw; exfalso; revert Hw; solve_writes|].
  intros [HK'|Hcor]; [rewrite (Hcount HK')|unfold is_corner in Hcor]; solve_vertex.
Qed.

Lemma edge_step_left s s' :
  bbox_inv K n0 c 2 base s →
  assign_bbox_count (bbox_update (Z.of_nat c) (Z.of_nat c - 1) geod 0 3
                       None (Some 0) s) = Ok s' →
  bbox_inv K n0 c 3 base s'.
Proof using c_pos K_exact.
  intros I2 Hu. pose proof I2 as (_ & _ & _ & Hcount).
  eapply (update_col_step K n0 c 2 base geod 0 3 s s' c_pos K_exact I2 0 0%nat);
    [exact Hu|lia|lia|solve_writes|].
  intros i h v Hi _ _ Hv.
  assert (Hcases : writes c 2 i 0 = 0%nat ∨ is_corner c i 0)
    by (unfold is_corner; solve_writes).
  split.
  - intros Hw. destruct Hcases as [?|Hcor]; [lia|].
    rewrite (Hv (or_intror Hcor)). unfold is_corner in Hcor. solve_vertex.
  - intros [HK'|Hcor]; [rewrite (Hcount HK')|unfold is_corner in Hcor];
      solve_vertex.
Qed.

Lemma edge_step_right s s' :
  bbox_inv K n0 c 3 base s →
  assign_bbox_count (bbox_update (Z.of_nat c) (Z.of_nat c - 1) geod 1 2
                       None (Some (-1)) s) = Ok s' →
  bbox_inv K n0 c 4 base s'.
Proof using c_pos K_exact.
  intros I3 Hu. pose proof I3 as (_ & _ & _ & Hcount).
  eapply (update_col_step K n0 c 3 base geod 1 2 s s' c_pos K_exact I3 (-1) c);
    [exact Hu|lia|lia|solve_writes|].
  intros i h v Hi _ _ Hv.
  assert (Hcases : writes c 3 i c = 0%nat ∨ is_corner c i c)
    by (unfold is_corner; solve_writes).
  split.
  - intros Hw. destruct Hcases as [?|Hcor]; [lia|].
    rewrite (Hv (or_intror Hcor)). unfold is_corner in Hcor. solve_vertex.
  - intros [HK'|Hcor]; [rewrite (Hcount HK')|unfold is_corner in Hcor];
      solve_vertex.
Qed.
End edge_steps.

(** The four border fills, as the state after them records them. *)
Lemma bbox_edges_segments (K : Prop) (c : nat) geod xs ys g0 st_e :
  (1 ≤ c)%nat → (K → npts_exact geod) → length xs = length ys →
  grid_sat (S c) (λ _ _ h, h = []) g0 →
  bbox_edges (Z.of_nat c) (Z.of_nat c - 1) geod (array xs) (array ys)
    (mkState g0 [] [] 0) = Ok st_e →
  filled_between geod c st_e xs 0 1 (λ p, (0%nat, p)) ∧
  filled_between geod c st_e xs 3 2 (λ p, (c, p)) ∧
  filled_between geod c st_e xs 0 3 (λ p, (p, 0%nat)) ∧
  filled_between geod c st_e xs 1 2 (λ p, (p, c)).
Proof.
  intros Hc HK Hlen Hsat. unfold bbox_edges.
  intros (s0 & [_ ->]%bbox_extend_arrays & Hrest)%bind_Ok. simpl in Hrest.
  apply bind_Ok in Hrest as (s1 & Hu1 & Hrest).
  apply bind_Ok in Hrest as (s2 & Hu2 & Hrest).
  apply bind_Ok in Hrest as (s3 & Hu3 & Hu4).
  set (n0 := Z.of_nat (length xs)) in *.
  set (s0 := mkState g0 xs ys (0 + n0)) in *.
  assert (I0 : bbox_inv K n0 c 0 g0 s0)
    by exact (bbox_inv_start K c xs ys g0 Hlen Hsat).
  pose proof (edge_step_top K n0 c g0 geod Hc HK s0 s1 I0 Hu1) as I1.
  pose proof (edge_step_bottom K n0 c g0 geod Hc HK s1 s2 I1 Hu2) as I2.
  pose proof (edge_step_left K n0 c g0 geod Hc HK s2 s3 I2 Hu3) as I3.
  pose proof (edge_step_right K n0 c g0 geod Hc HK s3 st_e I3 Hu4) as I4.
  destruct (bbox_update_prefix _ _ _ _ _ _ _ _ _ Hu1) as [L1 A1].
  destruct (bbox_update_prefix _ _ _ _ _ _ _ _ _ Hu2) as [L2 A2].
  destruct (bbox_update_prefix _ _ _ _ _ _ _ _ _ Hu3) as [L3 A3].
  destruct (bbox_update_prefix _ _ _ _ _ _ _ _ _ Hu4) as [L4 A4].
  assert (F0 : xs `prefix_of` bbox_lons s0) by done.
  assert (F1 : xs `prefix_of` bbox_lons s1) by (by etrans).
  assert (F2 : xs `prefix_of` bbox_lons s2) by (by etrans).
  assert (F3 : xs `prefix_of` bbox_lons s3) by (by etrans).
  (* the invariant of the later states, relative to each earlier one *)
  pose proof (bbox_inv_rebase _ _ _ _ _ _ I1) as R1.
  pose proof (edge_step_bottom K n0 c _ geod Hc HK s1 s2 R1 Hu2) as R12.
  pose proof (edge_step_left K n0 c _ geod Hc HK s2 s3 R12 Hu3) as R13.
  pose proof (edge_step_right K n0 c _ geod Hc HK s3 st_e R13 Hu4) as R14.
  pose proof (bbox_inv_rebase _ _ _ _ _ _ I2) as R2.
  pose proof (edge_step_left K n0 c _ geod Hc HK s2 s3 R2 Hu3) as R23.
  pose proof (edge_step_right K n0 c _ geod Hc HK s3 st_e R23 Hu4) as R24.
  pose proof (bbox_inv_rebase _ _ _ _ _ _ I3) as R3.
  pose proof (edge_step_right K n0 c _ geod Hc HK s3 st_e R3 Hu4) as R34.
  split; [|split; [|split]].
  - eapply (segment_transfer geod c s1).
    + eapply fresh_segment; [exact I0|exact Hu1|exact F0|].
      intros p Hp. cbn [fst snd].
      eapply update_content_row; [done|by eapply bbox_inv_grid_any|exact Hu1|lia..].
    + by do 2 (etrans; [eassumption|]).
    + by do 2 (etrans; [eassumption|]).
    + intros p Hp. cbn [fst snd]. eapply content_stable; [exact I1|exact R14|lia|lia|].
      solve_writes.
  - eapply (segment_transfer geod c s2).
    + eapply fresh_segment; [exact I1|exact Hu2|exact F1|].
      intros p Hp. cbn [fst snd].
      eapply update_content_row; [done|by eapply bbox_inv_grid_any|exact Hu2|lia..].
    + by etrans.
    + by etrans.
    + intros p Hp. cbn [fst snd]. eapply content_stable; [exact I2|exact R24|lia|lia|].
      solve_writes.
  - eapply (segment_transfer geod c s3).
    + eapply fresh_segment; [exact I2|exact Hu3|exact F2|].
      intros p Hp. cbn [fst snd].
      eapply update_content_col; [done|by eapply bbox_inv_grid_any|exact Hu3|lia..].
    + done.
    + done.
    + intros p Hp. cbn [fst snd]. eapply content_stable; [exact I3|exact R34|lia|lia|].
      solve_writes.
  - eapply fresh_segment; [exact I3|exact Hu4|exact F3|].
    intros p Hp. cbn [fst snd].
    eapply update_content_col; [done|by eapply bbox_inv_grid_any|exact Hu4|lia..].
Qed.

Lemma bbox_inner_row_Ok (c i : nat) geod s s' :
  square (S c) (idx_map s) → (1 ≤ c)%nat → (i ≤ c)%nat →
  bbox_inner_row (Z.of_nat c) (Z.of_nat c - 1) geod (Z.of_nat i) s = Ok s' →
  ∃ first last,
    grid_index (idx_map s) i 0 = Some first ∧
    grid_index (idx_map s) i c = Some last ∧
    assign_bbox_count (bbox_update (Z.of_nat c) (Z.of_nat c - 1) geod first last
                         (Some (Z.of_nat i)) None s) = Ok s'.
Proof.
  intros [_ Hcols] Hc Hi. unfold bbox_inner_row.
  intros (row & Hrow%idx_map_row_Ok & Hrest)%bind_Ok.
  apply bind_Ok in Hrest as (first & Hfirst & Hrest).
  apply bind_Ok in Hrest as (last & Hlast & Hupd).
  pose proof (Hcols _ _ Hrow) as Hlen.
  apply row_item_Ok in Hfirst as (k1 & h1 & Hh1 & -> & Hk1).
  apply row_item_Ok in Hlast as (k2 & h2 & Hh2 & -> & Hk2).
  pose proof (lookup_lt_Some _ _ _ Hh1). pose proof (lookup_lt_Some _ _ _ Hh2).
  assert (k1 = 0%nat) as -> by lia. assert (k2 = c) as -> by lia.
  exists (content h1), (content h2). unfold grid_index, cell_at.
  rewrite Hrow. simpl. by rewrite Hh1, Hh2.
Qed.

(** The fills of the inner rows, as the final state records them. *)
Lemma bbox_inner_segments (K : Prop) n0 (c : nat) base0 geod st_e st :
  (1 ≤ c)%nat → (K → npts_exact geod) →
  bbox_inv K n0 c 4 base0 st_e →
  bbox_inner (Z.of_nat c) (Z.of_nat c - 1) geod st_e = Ok st →
  bbox_lons st_e `prefix_of` bbox_lons st ∧
  bbox_lats st_e `prefix_of` bbox_lats st ∧
  ∀ i, (1 ≤ i < c)%nat →
    ∃ first last,
      grid_index (idx_map st_e) i 0 = Some first ∧
      grid_index (idx_map st_e) i c = Some last ∧
      filled_between geod c st (bbox_lons st_e) first last (λ p, (i, p)).
Proof.
  intros Hc HK Ie0 Hloop. pose proof (bbox_inv_rebase _ _ _ _ _ _ Ie0) as Ie.
  set (base := idx_map st_e) in *.
  pose (J := λ (z : Z) (t : state),
         ∃ m : nat, z = Z.of_nat m ∧ bbox_inv K n0 c (3 + m) base t ∧
           bbox_lons st_e `prefix_of` bbox_lons t ∧
           bbox_lats st_e `prefix_of` bbox_lats t ∧
           ∀ i, (1 ≤ i < m)%nat →
             ∃ first last,
               grid_index base i 0 = Some first ∧
               grid_index base i c = Some last ∧
               filled_between geod c t (bbox_lons st_e) first last (λ p, (i, p))).
  unfold bbox_inner, py_range in Hloop.
  destruct (for_each_seqZ J (bbox_inner_row (Z.of_nat c) (Z.of_nat c - 1) geod)
              1 (Z.of_nat c - 1) st_e st) as (m & Hm & _ & Pl & Pa & Hsegs);
    [|lia| |exact Hloop|].
  - intros z t t' Hz (m & -> & It & Pl & Pa & Hsegs) Hbody.
    pose proof It as ([Hsq _] & _).
    destruct (bbox_inner_row_Ok c m geod t t' Hsq Hc ltac:(lia) Hbody)
      as (first & last & Hfirst & Hlast & Hupd).
    destruct (bbox_update_prefix _ _ _ _ _ _ _ _ _ Hupd) as [Pl' Pa'].
    pose proof (bbox_inner_row_inv K n0 c base geod m t t' Hc HK ltac:(lia) It Hbody)
      as It'.
    pose proof (bbox_inner_row_inv K n0 c _ geod m t t' Hc HK ltac:(lia)
                  (bbox_inv_rebase _ _ _ _ _ _ It) Hbody) as Rt'.
    exists (S m). split; [lia|]. split; [done|].
    split; [by etrans|]. split; [by etrans|].
    intros i Hi. destruct (decide (i = m)) as [->|Hne].
    + exists first, last.
      assert (Hkeep : ∀ j, (j = 0 ∨ j = c)%nat →
                grid_index (idx_map t) m j = grid_index base m j).
      { intros j Hj. eapply content_stable; [exact Ie|exact It|lia|lia|].
        solve_writes. }
      rewrite <- !Hkeep by lia. do 2 (split; [done|]).
      eapply fresh_segment; [exact It|exact Hupd|exact Pl|].
      intros p Hp. cbn [fst snd].
      eapply update_content_row; [done|by eapply bbox_inv_grid_any|exact Hupd|lia..].
    + destruct (Hsegs i ltac:(lia)) as (f & l & Hf & Hl & Hseg).
      exists f, l. do 2 (split; [done|]).
      eapply segment_transfer; [exact Hseg|done|done|].
      intros p Hp. cbn [fst snd]. eapply content_stable; [exact It|exact Rt'|lia|lia|].
      solve_writes.
  - exists 1%nat. split; [done|]. split; [exact Ie|]. do 2 (split; [done|]).
    intros i Hi. lia.
  - do 2 (split; [done|]). intros i Hi. apply Hsegs. lia.
Qed.

(** The construction of the grid, phase by phase. *)
Lemma bbox_grid_trace longitudes latitudes ellps c st :
  bbox_grid longitudes latitudes ellps c = Ok st →
  ∃ geod g0 st_e,
    let lons := asanyarray longitudes in
    let lats := asanyarray latitudes in
    let n0 := Z.of_nat (length lons) in
    let cn := Z.to_nat c in
    1 ≤ c ∧
    bbox_edges c (c - 1) geod (array lons) (array lats) (mkState g0 [] [] 0)
      = Ok st_e ∧
    bbox_inner c (c - 1) geod st_e = Ok st ∧
    bbox_inv False n0 cn 4 g0 st_e ∧
    bbox_inv False n0 cn (cn + 3) (idx_map st_e) st ∧
    (filled_between geod cn st_e lons 0 1 (λ p, (0%nat, p)) ∧
     filled_between geod cn st_e lons 3 2 (λ p, (cn, p)) ∧
     filled_between geod cn st_e lons 0 3 (λ p, (p, 0%nat)) ∧
     filled_between geod cn st_e lons 1 2 (λ p, (p, cn))) ∧
    bbox_lons st_e `prefix_of` bbox_lons st ∧
    bbox_lats st_e `prefix_of` bbox_lats st ∧
    ∀ i, (1 ≤ i < cn)%nat →
      ∃ first last,
        grid_index (idx_map st_e) i 0 = Some first ∧
        grid_index (idx_map st_e) i cn = Some last ∧
        filled_between geod cn st (bbox_lons st_e) first last (λ p, (i, p)).
Proof.
  unfold bbox_grid.
  intros ([] & [Hlen Hn]%bbox_validate_Ok & Hrest)%bind_Ok.
  apply bind_Ok in Hrest as ([a b] & Hopen & Hrest).
  apply bind_Ok in Hrest as (g0 & [Hc0 Hg0]%np_empty_sat & Hrest).
  apply bind_Ok in Hrest as (geod & Hgeod & Hrest).
  apply bind_Ok in Hrest as (st_e & Hedges & Hinner).
  apply bbox_ensure_open_Ok in Hopen as [[-> ->]|(x & y & -> & ->)];
    [|by unfold bbox_edges in Hedges].
  destruct (bbox_edges_inv False c geod _ _ g0 st_e ltac:(done) Hg0 Hedges)
    as (Hc & _ & Ie).
  exists geod, g0, st_e. simpl. do 3 (split; [done|]).
  set (cn := Z.to_nat c) in *.
  assert (Hcn : (1 ≤ cn)%nat) by lia.
  replace c with (Z.of_nat cn) in Hinner, Hedges, Hg0 by lia.
  replace (Z.to_nat (Z.of_nat cn + 1)) with (S cn) in Hg0 by lia.
  split; [done|].
  split; [eapply bbox_inner_inv;
            [lia|done|exact (bbox_inv_rebase _ _ _ _ _ _ Ie)|exact Hinner]|].
  split; [by eapply (bbox_edges_segments False)|].
  by eapply (bbox_inner_segments False _ _ _ _ _ _ Hcn (False_ind _) Ie).
Qed.
End bbox_segments.

Section bbox_theorems.
Context `{Collaborators}.

(** C7: a successful [bbox] call without triangulation, over a geodesic
    reference that returns the [npts] points it is asked for, yields exactly
    [c * c] faces; every face lists 4 pairwise distinct vertex indices, each
    a valid offset into the point array; and with 4 corners and [c = 2] the
    mesh has 4 faces and 9 points. *)
Theorem bbox_quads_valid longitudes latitudes ellps radius c mesh :
  (∀ geod, pyproj_Geod ellps = Ok geod → npts_exact geod) →
  bbox longitudes latitudes ellps radius c false = Ok mesh →
  Z.of_nat (length (faces mesh)) = c * c ∧
  (∀ face, face ∈ faces mesh →
     ∃ v1 v2 v3 v4, face = [4; v1; v2; v3; v4] ∧ NoDup [v1; v2; v3; v4] ∧
       Forall (λ v, 0 ≤ v < Z.of_nat (length (points mesh))) [v1; v2; v3; v4]) ∧
  (length (asanyarray longitudes) = 4%nat → c = 2 →
     length (faces mesh) = 4%nat ∧ length (points mesh) = 9%nat).
Proof.
  intros Hexact (st & fs & Hst & Hfs & ->)%bbox_Ok. simpl.
  destruct (bbox_grid_inv True _ _ _ _ _ (λ g Hg _, Hexact g Hg) Hst)
    as (geod & g0 & st_e & Hlen & Hn & Hc & _ & _ & _ & _ & I). simpl in I.
  set (cn := Z.to_nat c) in *. set (n0 := Z.of_nat (length (asanyarray longitudes))) in *.
  assert (Hcn : (1 ≤ cn)%nat) by lia.
  pose proof I as ([Hsq _] & Hll & Hcount & HK). specialize (HK Logic.I).
  destruct (bbox_faces_spec cn (idx_map st) Hsq) as (fs' & Hfs' & Hfl & Hrows).
  replace (Z.of_nat cn) with c in Hfs' by lia.
  assert (fs' = fs) as -> by congruence.
  assert (Hpts : Z.of_nat (length (to_xyz (bbox_lons st) (bbox_lats st) radius))
                 = n0 + (Z.of_nat cn + 3) * (Z.of_nat cn - 1)).
  { unfold to_xyz. rewrite length_zip_with. lia. }
  split; [lia|]. split.
  - intros face (k & Hface)%list_elem_of_lookup.
    pose proof (lookup_lt_Some _ _ _ Hface) as Hk. rewrite Hfl in Hk.
    assert (Hcn0 : (cn ≠ 0)%nat) by lia.
    pose proof (Nat.div_mod_eq k cn) as Hdm.
    pose proof (Nat.mod_upper_bound k cn Hcn0) as Hmod.
    assert (Hdiv : (k `div` cn < cn)%nat) by (apply Nat.Div0.div_lt_upper_bound; lia).
    set (i := (k `div` cn)%nat) in *. set (j := (k `mod` cn)%nat) in *.
    destruct (Hrows i j Hdiv Hmod) as (v1 & v2 & v3 & v4 & H1 & H2 & H3 & H4 & Hrow).
    replace (i * cn + j)%nat with k in Hrow by lia.
    assert (face = [4; v1; v2; v3; v4]) as -> by congruence.
    rewrite (final_index True n0 cn _ st i j) in H1 by (done || lia || by left).
    rewrite (final_index True n0 cn _ st i (S j)) in H2 by (done || lia || by left).
    rewrite (final_index True n0 cn _ st (S i) (S j)) in H3 by (done || lia || by left).
    rewrite (final_index True n0 cn _ st (S i) j) in H4 by (done || lia || by left).
    injection H1 as <-. injection H2 as <-. injection H3 as <-. injection H4 as <-.
    assert (Hn0 : 4 ≤ n0) by lia.
    eexists _, _, _, _. split; [done|]. split.
    + repeat (apply NoDup_cons; split); [..|apply NoDup_nil_2];
        rewrite ?not_elem_of_cons; repeat split; try apply not_elem_of_nil;
        intros Heq; apply vertex_id_inj in Heq; lia.
    + rewrite Hpts. repeat (apply Forall_cons; split); [..|done];
        apply vertex_id_bound; lia.
  - intros H4 ->. split; [lia|]. unfold n0 in Hpts. rewrite H4 in Hpts.
    change cn with 2%nat in Hpts. lia.
Qed.

(** C8, as amended: before face generation every cell of the IndexGrid has
    been assigned, the cells of the first and last column twice and all
    others once, and all assignments to a cell write one value. The border
    rows and columns are filled first, from the 4 corners: row 0 is
    interpolated between the vertices 0 and 1, row [c] between 3 and 2,
    column 0 between 0 and 3 and column [c] between 1 and 2, over a buffer
    that begins with the corners, and only border cells are assigned by
    then. The inner rows are filled afterwards: row [i] is interpolated
    between the vertices held by its first and last entries, which the
    border columns have set and which keep their values, over a buffer that
    begins with the one the border fills left. Each fill stores its points
    in the vertex buffer at the positions it writes between the two end
    entries of its line. In the end the corner cells (0,0), (0,c), (c,0),
    (c,c) hold 0, 1, 3, 2, the positions of the original corners in the
    vertex buffer. *)
Theorem bbox_grid_filled longitudes latitudes ellps c st :
  bbox_grid longitudes latitudes ellps c = Ok st →
  ∃ geod g0 st_e (cn : nat),
    c = Z.of_nat cn ∧ (1 ≤ cn)%nat ∧
    bbox_edges c (c - 1) geod (array (asanyarray longitudes))
      (array (asanyarray latitudes)) (mkState g0 [] [] 0) = Ok st_e ∧
    bbox_inner c (c - 1) geod st_e = Ok st ∧
    (∀ i j, (i ≤ cn)%nat → (j ≤ cn)%nat →
       ∃ h, cell_at (idx_map st_e) i j = Some h ∧
            (h ≠ [] ↔ (i = 0 ∨ i = cn ∨ j = 0 ∨ j = cn)%nat)) ∧
    (∀ i j, (i ≤ cn)%nat → (j ≤ cn)%nat →
       ∃ v, cell_at (idx_map st) i j
            = Some (replicate (if decide (j = 0 ∨ j = cn)%nat then 2 else 1)%nat v) ∧
            ((0 < i < cn)%nat → (j = 0 ∨ j = cn)%nat →
             grid_index (idx_map st_e) i j = Some v)) ∧
    grid_index (idx_map st) 0 0 = Some 0 ∧
    grid_index (idx_map st) 0 cn = Some 1 ∧
    grid_index (idx_map st) cn 0 = Some 3 ∧
    grid_index (idx_map st) cn cn = Some 2 ∧
    asanyarray longitudes `prefix_of` bbox_lons st ∧
    asanyarray latitudes `prefix_of` bbox_lats st ∧
    filled_between geod cn st_e (asanyarray longitudes) 0 1 (λ p, (0%nat, p)) ∧
    filled_between geod cn st_e (asanyarray longitudes) 3 2 (λ p, (cn, p)) ∧
    filled_between geod cn st_e (asanyarray longitudes) 0 3 (λ p, (p, 0%nat)) ∧
    filled_between geod cn st_e (asanyarray longitudes) 1 2 (λ p, (p, cn)) ∧
    bbox_lons st_e `prefix_of` bbox_lons st ∧
    bbox_lats st_e `prefix_of` bbox_lats st ∧
    (∀ i j, (i ≤ cn)%nat → (j ≤ cn)%nat → (i = 0 ∨ i = cn ∨ j = 0 ∨ j = cn)%nat →
       grid_index (idx_map st) i j = grid_index (idx_map st_e) i j) ∧
    (∀ i, (0 < i < cn)%nat →
       ∃ first last,
         grid_index (idx_map st_e) i 0 = Some first ∧
         grid_index (idx_map st_e) i cn = Some last ∧
         filled_between geod cn st (bbox_lons st_e) first last (λ p, (i, p))).
Proof.
  intros Hst.
  destruct (bbox_grid_trace _ _ _ _ _ Hst)
    as (geod & g0 & st_e & Hc & Hedges & Hinner & Ie & I & Hborder & Pl & Pa & Hrows).
  simpl in Ie, I, Hedges, Hborder, Hrows.
  set (cn := Z.to_nat c) in *. set (n0 := Z.of_nat (length (asanyarray longitudes))) in *.
  assert (Hcn : (1 ≤ cn)%nat) by lia.
  exists geod, g0, st_e, cn. split; [lia|]. do 3 (split; [done|]).
  assert (Hedge_cells : ∀ i j, (i ≤ cn)%nat → (j ≤ cn)%nat →
            ∃ v, cell_at (idx_map st_e) i j = Some (replicate (writes cn 4 i j) v)).
  { intros i j Hi Hj. destruct Ie as ([_ Hcells] & _).
    destruct (Hcells i j) as (h & Hh & (v & -> & _) & _); [lia..|]. by exists v. }
  split; [|split].
  - intros i j Hi Hj. destruct (Hedge_cells i j Hi Hj) as (v & Hv).
    eexists. split; [done|]. rewrite <- (writes_edges cn i j) by done.
    destruct (writes cn 4 i j); simpl; [split; [done|lia]|split; [lia|done]].
  - intros i j Hi Hj.
    destruct (final_cell False n0 cn _ st i j Hcn I Hi Hj) as (v & h0 & Hh & _ & Hh0 & Hsuf).
    exists v. split; [done|]. intros Hin Hjj.
    destruct (Hedge_cells i j Hi Hj) as (v0 & Hv0).
    rewrite Hh0 in Hv0. injection Hv0 as ->.
    replace (writes cn 4 i j) with 1%nat in * by (symmetry; solve_writes).
    rewrite decide_True in Hsuf by done. simpl in Hsuf.
    apply suffix_singleton_pair in Hsuf as ->.
    unfold grid_index. by rewrite Hh0.
  - assert (Hcorner : ∀ i j, is_corner cn i j →
              grid_index (idx_map st) i j = Some (vertex_id n0 cn i j)).
    { intros i j Hij. eapply final_index; [done|exact I|..|by right];
        unfold is_corner in Hij; lia. }
    rewrite !Hcorner by (unfold is_corner; lia).
    unfold vertex_id, edge_value. simpl.
    repeat case_decide; try lia.
    do 4 (split; [done|]).
    destruct (bbox_buffer_prefix _ _ _ _ _ _ _ Hedges Hinner) as [Hpl Hpa].
    do 2 (split; [done|]).
    destruct Hborder as (Htop & Hbottom & Hleft & Hright).
    do 4 (split; [done|]). do 2 (split; [done|]).
    split; [|intros i Hi; apply Hrows; lia].
    intros i j Hi Hj Hij. eapply content_stable; [exact Ie|exact I|done|done|].
    by apply writes_edges.
Qed.

(** C9: where the call without triangulation succeeds, so does the call
    with [triangulate=True]; over a triangulation filter that splits quads,
    its mesh has twice the faces, each with 3 vertex indices, every quad
    being replaced by its two triangles along one diagonal, and the same
    points. *)
Theorem bbox_triangulate_doubles longitudes latitudes ellps radius c mesh :
  triangulate_splits_quads →
  bbox longitudes latitudes ellps radius c false = Ok mesh →
  ∃ tri_mesh,
    bbox longitudes latitudes ellps radius c true = Ok tri_mesh ∧
    length (faces tri_mesh) = (2 * length (faces mesh))%nat ∧
    Forall is_triangle (faces tri_mesh) ∧
    (∃ diags : list bool, length diags = length (faces mesh) ∧
       faces tri_mesh = concat (zip_with split_quad diags (faces mesh))) ∧
    points tri_mesh = points mesh.
Proof.
  intros Htri (st & fs & Hst & Hfs & ->)%bbox_Ok. simpl.
  eexists. split; [unfold bbox; rewrite Hst; simpl; rewrite Hfs; done|]. simpl.
  destruct (bbox_faces_quads _ _ _ _ _ _ Hst Hfs) as [Hquads _].
  destruct (Htri (mkPolyData (to_xyz (bbox_lons st) (bbox_lats st) radius) fs (c * c)))
    as (Hpts & diags & Hlen & Hfaces); [done|]. simpl in *.
  destruct (split_quads_triangles diags fs Hquads Hlen) as [Hl Ht].
  rewrite Hfaces. repeat split; try done. by exists diags.
Qed.
End bbox_theorems.

(** ** The code run on the 10 by 10 degree box *)

Lemma planar_npts_exact (geod : Geod) : npts_exact (H := planar) geod.
Proof.
  intros lon1 lat1 lon2 lat2 npts radians pts. simpl. unfold planar_npts.
  intros [= <-]. by rewrite length_fmap, length_seqZ.
Qed.

Lemma fan_split (fs : list (list Z)) :
  concat (split_quad true <$> fs)
  = concat (zip_with split_quad (replicate (length fs) true) fs).
Proof.
  induction fs as [|f fs IH]; [done|].
  change (split_quad true f ++ concat (split_quad true <$> fs)
          = split_quad true f
            ++ concat (zip_with split_quad (replicate (length fs) true) fs)).
  by rewrite IH.
Qed.

Lemma planar_triangulate_splits_quads : triangulate_splits_quads (H := planar).
Proof.
  intros m _. split; [done|]. exists (replicate (length (faces m)) true).
  split; [by rewrite length_replicate|]. apply fan_split.
Qed.

Lemma bbox_faces_enumerate_grid_witness :
  ∃ st fs (cn : nat),
    2 = Z.of_nat cn ∧
    bbox_grid (array box_lons) (array box_lats) "WGS84" 2 = Ok st ∧
    bbox_faces 2 (2 * 2) (idx_map st) = Ok fs ∧
    (false = false → faces box_mesh = fs) ∧
    length fs = (cn * cn)%nat ∧
    ∀ i j, (i < cn)%nat → (j < cn)%nat →
      ∃ v1 v2 v3 v4,
        grid_index (idx_map st) i j = Some v1 ∧
        grid_index (idx_map st) i (S j) = Some v2 ∧
        grid_index (idx_map st) (S i) (S j) = Some v3 ∧
        grid_index (idx_map st) (S i) j = Some v4 ∧
        fs !! (i * cn + j)%nat = Some [4; v1; v2; v3; v4].
Proof.
  apply (bbox_faces_enumerate_grid (H := planar) (array box_lons) (array box_lats)
           "WGS84" (11 # 10) 2 false box_mesh).
  vm_compute. reflexivity.
Defined.

Lemma bbox_quads_valid_witness :
  Z.of_nat (length (faces box_mesh)) = 2 * 2 ∧
  (∀ face, face ∈ faces box_mesh →
     ∃ v1 v2 v3 v4, face = [4; v1; v2; v3; v4] ∧ NoDup [v1; v2; v3; v4] ∧
       Forall (λ v, 0 ≤ v < Z.of_nat (length (points box_mesh))) [v1; v2; v3; v4]) ∧
  (length (asanyarray (array box_lons)) = 4%nat → 2 = 2 →
     length (faces box_mesh) = 4%nat ∧ length (points box_mesh) = 9%nat).
Proof.
  apply (bbox_quads_valid (H := planar) (array box_lons) (array box_lats)
           "WGS84" (11 # 10) 2 box_mesh).
  - intros geod _. apply planar_npts_exact.
  - vm_compute. reflexivity.
Defined.

Lemma bbox_grid_filled_witness :
  ∃ geod g0 st_e (cn : nat),
    2 = Z.of_nat cn ∧ (1 ≤ cn)%nat ∧
    bbox_edges 2 (2 - 1) geod (array (asanyarray (array box_lons)))
      (array (asanyarray (array box_lats))) (mkState g0 [] [] 0) = Ok st_e ∧
    bbox_inner 2 (2 - 1) geod st_e = Ok box_state ∧
    (∀ i j, (i ≤ cn)%nat → (j ≤ cn)%nat →
       ∃ h, cell_at (idx_map st_e) i j = Some h ∧
            (h ≠ [] ↔ (i = 0 ∨ i = cn ∨ j = 0 ∨ j = cn)%nat)) ∧
    (∀ i j, (i ≤ cn)%nat → (j ≤ cn)%nat →
       ∃ v, cell_at (idx_map box_state) i j
            = Some (replicate (if decide (j = 0 ∨ j = cn)%nat then 2 else 1)%nat v) ∧
            ((0 < i < cn)%nat → (j = 0 ∨ j = cn)%nat →
             grid_index (idx_map st_e) i j = Some v)) ∧
    grid_index (idx_map box_state) 0 0 = Some 0 ∧
    grid_index (idx_map box_state) 0 cn = Some 1 ∧
    grid_index (idx_map box_state) cn 0 = Some 3 ∧
    grid_index (idx_map box_state) cn cn = Some 2 ∧
    asanyarray (array box_lons) `prefix_of` bbox_lons box_state ∧
    asanyarray (array box_lats) `prefix_of` bbox_lats box_state ∧
    filled_between geod cn st_e (asanyarray (array box_lons)) 0 1 (λ p, (0%nat, p)) ∧
    filled_between geod cn st_e (asanyarray (array box_lons)) 3 2 (λ p, (cn, p)) ∧
    filled_between geod cn st_e (asanyarray (array box_lons)) 0 3 (λ p, (p, 0%nat)) ∧
    filled_between geod cn st_e (asanyarray (array box_lons)) 1 2 (λ p, (p, cn)) ∧
    bbox_lons st_e `prefix_of` bbox_lons box_state ∧
    bbox_lats st_e `prefix_of` bbox_lats box_state ∧
    (∀ i j, (i ≤ cn)%nat → (j ≤ cn)%nat → (i = 0 ∨ i = cn ∨ j = 0 ∨ j = cn)%nat →
       grid_index (idx_map box_state) i j = grid_index (idx_map st_e) i j) ∧
    (∀ i, (0 < i < cn)%nat →
       ∃ first last,
         grid_index (idx_map st_e) i 0 = Some first ∧
         grid_index (idx_map st_e) i cn = Some last ∧
         filled_between geod cn box_state (bbox_lons st_e) first last (λ p, (i, p))).
Proof.
  apply (bbox_grid_filled (H := planar) (array box_lons) (array box_lats) "WGS84" 2
           box_state).
  vm_compute. reflexivity.
Defined.

(** C8, as stated, fails: the corner cell (0, 0) is assigned by the fill of
    row 0 and again by the fill of column 0. *)
Lemma bbox_grid_cell_assigned_twice :
  ¬ (∀ st, bbox_grid (array box_lons) (array box_lats) "WGS84" 2 = Ok st →
       ∀ i j h, cell_at (idx_map st) i j = Some h → length h = 1%nat).
Proof.
  intros Honce.
  assert (Hrun : bbox_grid (array box_lons) (array box_lats) "WGS84" 2 = Ok box_state)
    by (vm_compute; reflexivity).
  assert (Hcell : cell_at (idx_map box_state) 0 0 = Some [0; 0])
    by (vm_compute; reflexivity).
  pose proof (Honce box_state Hrun 0%nat 0%nat [0; 0] Hcell) as Hlen.
  simpl in Hlen. lia.
Qed.

Lemma bbox_triangulate_doubles_witness :
  ∃ tri_mesh,
    bbox (array box_lons) (array box_lats) "WGS84" (11 # 10) 2 true = Ok tri_mesh ∧
    length (faces tri_mesh) = (2 * length (faces box_mesh))%nat ∧
    Forall is_triangle (faces tri_mesh) ∧
    (∃ diags : list bool, length diags = length (faces box_mesh) ∧
       faces tri_mesh = concat (zip_with split_quad diags (faces box_mesh))) ∧
    points tri_mesh = points box_mesh.
Proof.
  apply (bbox_triangulate_doubles (H := planar) (array box_lons) (array box_lats)
           "WGS84" (11 # 10) 2 box_mesh).
  - apply planar_triangulate_splits_quads.
  - vm_compute. reflexivity.
Defined.


(** * Further properties of the module *)

(** ** End points and indices of [geodesic] and [geodesic_by_idx] *)

Section geodesic_edges.
Context `{Collaborators}.

(** X1: [geodesic] gives a result only when the geodesic reference returned
    at least one point. An empty list makes the unpacking of
    [zip( *glonlats )] raise [ValueError]; an exception of the reference is
    raised unchanged. *)
Theorem geodesic_needs_points start_lon start_lat end_lon end_lat npts radians
    (include_start include_end : bool) geod g :
  default_geod geod = Ok g →
  (Geod_npts g start_lon start_lat end_lon end_lat npts radians
     (if include_start then 0 else 1) (if include_end then 0 else 1) = Ok [] →
   geodesic start_lon start_lat end_lon end_lat npts radians include_start
     include_end geod
   = Raise (ValueError "not enough values to unpack (expected 2, got 0)")) ∧
  (∀ e, Geod_npts g start_lon start_lat end_lon end_lat npts radians
          (if include_start then 0 else 1) (if include_end then 0 else 1) = Raise e →
        geodesic start_lon start_lat end_lon end_lat npts radians include_start
          include_end geod = Raise e) ∧
  (∀ glons glats,
     geodesic start_lon start_lat end_lon end_lat npts radians include_start
       include_end geod = Ok (glons, glats) →
     glons ≠ [] ∧ glats ≠ []).
Proof.
  intros Hg. split; [|split].
  - intros Hpts. unfold geodesic. rewrite Hg. simpl. by rewrite Hpts.
  - intros e Hpts. unfold geodesic. rewrite Hg. simpl. by rewrite Hpts.
  - intros glons glats (g' & pts & _ & _ & Hne & -> & ->)%geodesic_inv.
    by destruct pts.
Qed.

Lemma py_getitem_invalid {A} (l : list A) (i : Z) :
  ¬ valid_index l i → py_getitem l i = Raise (IndexError "list index out of range").
Proof.
  unfold valid_index, py_getitem. intros Hi.
  destruct (Z.ltb_spec i 0); case_match eqn:Hb; try done;
    case_match eqn:Hc; try done;
    apply andb_true_iff in Hc as [?%Z.leb_le ?%Z.ltb_lt]; lia.
Qed.

(** X2: with a geodesic reference at hand, an index outside
    [-len, len) of the longitudes makes [geodesic_by_idx] raise [IndexError],
    the start index being looked up first. *)
Theorem geodesic_by_idx_out_of_range (lons lats : list Q) (i j npts : Z)
    (radians include_start include_end : bool) geod g :
  default_geod geod = Ok g →
  ¬ valid_index lons i ∨ (length lons = length lats ∧ ¬ valid_index lons j) →
  geodesic_by_idx lons lats i j npts radians include_start include_end geod
  = Raise (IndexError "list index out of range").
Proof.
  intros Hg Hbad. unfold geodesic_by_idx. rewrite Hg. simpl.
  destruct (decide (valid_index lons i)) as [Hi|Hi].
  - destruct Hbad as [?|[Hlen Hj]]; [done|].
    destruct (py_getitem_valid lons i Hi) as [a ->]. simpl.
    unfold valid_index in Hi. rewrite Hlen in Hi.
    destruct (py_getitem_valid lats i Hi) as [a' ->]. simpl.
    by rewrite (py_getitem_invalid lons j Hj).
  - by rewrite (py_getitem_invalid lons i Hi).
Qed.

Lemma py_getitem_negative {A} (l : list A) (i : Z) :
  - Z.of_nat (length l) ≤ i < 0 →
  py_getitem l i = py_getitem l (i + Z.of_nat (length l)).
Proof.
  intros Hi. unfold py_getitem.
  destruct (Z.ltb_spec i 0); [|lia].
  destruct (Z.ltb_spec (i + Z.of_nat (length l)) 0); [lia|]. done.
Qed.

(** X3: a negative index counts from the end: for equal-length arrays,
    [geodesic_by_idx] with a start or end index [i] in [-len, 0) is
    [geodesic_by_idx] with [i + len]. *)
Theorem geodesic_by_idx_negative (lons lats : list Q) (i j npts : Z)
    (radians include_start include_end : bool) geod :
  length lons = length lats →
  - Z.of_nat (length lons) ≤ i < 0 → - Z.of_nat (length lons) ≤ j < 0 →
  geodesic_by_idx lons lats i j npts radians include_start include_end geod
  = geodesic_by_idx lons lats (i + Z.of_nat (length lons))
      (j + Z.of_nat (length lons)) npts radians include_start include_end geod.
Proof.
  intros Hlen Hi Hj. unfold geodesic_by_idx.
  rewrite (py_getitem_negative lons i), (py_getitem_negative lons j) by done.
  rewrite (py_getitem_negative lats i), (py_getitem_negative lats j) by lia.
  by rewrite Hlen.
Qed.
End geodesic_edges.

(** ** When [bbox] returns a mesh *)

Section bbox_success.
Context `{Collaborators}.

Lemma bbox_validate_intro (lons lats : list Q) :
  length lons = length lats → (4 ≤ length lons ≤ 5)%nat →
  bbox_validate lons lats = Ok tt.
Proof.
  intros Hlen Hn. unfold bbox_validate.
  rewrite bool_decide_eq_true_2 by done. simpl.
  rewrite !bool_decide_eq_false_2 by lia. done.
Qed.

Lemma bbox_ensure_open_spec (lons lats : list Q) :
  length lons = length lats → (4 ≤ length lons ≤ 5)%nat →
  (ends_close lons lats = false →
   bbox_ensure_open lons lats = Ok (array lons, array lats)) ∧
  (ends_close lons lats = true →
   ∃ x y, bbox_ensure_open lons lats = Ok (scalar x, scalar y)).
Proof.
  intros Hlen Hn.
  destruct lons as [|a1 [|a2 [|a3 [|a4 [|a5 [|a6 lons]]]]]]; simpl in Hn; try lia;
    destruct lats as [|b1 [|b2 [|b3 [|b4 [|b5 [|b6 lats]]]]]]; simplify_eq/=;
    unfold ends_close, bbox_ensure_open; simpl;
    (destruct (np_isclose a1 _); simpl; [destruct (np_isclose b1 _); simpl|]);
    split; intros; simplify_eq; eauto.
Qed.

(** X4: [bbox] returns a mesh only for 4 or 5 corners with as many
    longitudes as latitudes, whose first and last corner are not close on
    both axes, a subdivision factor [c >= 1] and an ellipsoid that
    [pyproj.Geod] accepts. In particular a closed ring never yields a
    mesh. *)
Theorem bbox_success_requirements longitudes latitudes ellps radius c
    triangulate mesh :
  bbox longitudes latitudes ellps radius c triangulate = Ok mesh →
  length (asanyarray longitudes) = length (asanyarray latitudes) ∧
  (4 ≤ length (asanyarray longitudes) ≤ 5)%nat ∧
  ends_close (asanyarray longitudes) (asanyarray latitudes) = false ∧
  1 ≤ c ∧
  ∃ geod, pyproj_Geod ellps = Ok geod.
Proof.
  intros Hbbox. pose proof Hbbox as (st & fs & Hst & _)%bbox_Ok.
  destruct (bbox_grid_inv False _ _ _ _ _ ltac:(done) Hst)
    as (geod & g0 & st_e & Hlen & Hn & Hc & Hgeod & _). simpl in *.
  do 2 (split; [done|]). split; [|split; [done|by exists geod]].
  destruct (ends_close _ _) eqn:Hclose; [|done].
  destruct (bbox_ensure_open_spec _ _ Hlen Hn) as [_ Hscal].
  destruct (Hscal Hclose) as (x & y & Hopen).
  destruct (bbox_scalar_raises longitudes latitudes ellps radius c triangulate x y
              (bbox_validate_intro _ _ Hlen Hn) Hopen) as [e He].
  congruence.
Qed.

Lemma geodesic_by_idx_nonempty lons lats i j npts geod glons glats :
  geodesic_by_idx lons lats i j npts false false false (Some geod)
    = Ok (glons, glats) →
  (0 < length glons)%nat.
Proof.
  unfold geodesic_by_idx. simpl. intros Hg.
  apply bind_Ok in Hg as (a & _ & Hg). apply bind_Ok in Hg as (a' & _ & Hg).
  apply bind_Ok in Hg as (b & _ & Hg). apply bind_Ok in Hg as (b' & _ & Hg).
  apply geodesic_inv in Hg as (g & pts & _ & _ & Hne & -> & _).
  unfold wrap. rewrite !length_fmap. destruct pts; [done|simpl; lia].
Qed.

(** X5: over a geodesic reference that returns the [npts] points it is
    asked for, [bbox] returns a mesh only for [c >= 2]: with [c = 1] an edge
    has no inner point, and [geodesic] cannot unpack an empty result. *)
Theorem bbox_needs_two_subdivisions longitudes latitudes ellps radius c
    triangulate mesh :
  (∀ geod, pyproj_Geod ellps = Ok geod → npts_exact geod) →
  bbox longitudes latitudes ellps radius c triangulate = Ok mesh →
  2 ≤ c.
Proof.
  intros Hexact (st & fs & Hst & _)%bbox_Ok.
  destruct (bbox_grid_inv True _ _ _ _ _ (λ g Hg _, Hexact g Hg) Hst)
    as (geod & g0 & st_e & _ & _ & Hc & Hgeod & Hedges & _). simpl in Hedges.
  unfold bbox_edges in Hedges.
  apply bind_Ok in Hedges as (st0 & _ & Hrest).
  apply bind_Ok in Hrest as (st1 & Hu1 & _).
  apply bbox_update_inv in Hu1 as (glons & glats & g' & Hgeo & _).
  pose proof (geodesic_by_idx_nonempty _ _ _ _ _ _ _ _ Hgeo) as Hpos.
  apply geodesic_by_idx_lengths in Hgeo as [_ Hlen].
  rewrite (Hlen (Hexact geod Hgeod)) in Hpos. lia.
Qed.

(** The exception of [np.empty] for a grid it cannot make room for is the
    exception of [bbox], whatever the ellipsoid: the grid is made on line
    158, before [pyproj.Geod] is called on line 161. *)
Lemma bbox_allocation_failure longitudes latitudes ellps radius c triangulate e :
  length (asanyarray longitudes) = length (asanyarray latitudes) →
  (4 ≤ length (asanyarray longitudes) ≤ 5)%nat →
  -1 ≤ c →
  np_allocate (c + 1) (c + 1) = Raise e →
  bbox longitudes latitudes ellps radius c triangulate = Raise e.
Proof.
  intros Hlen Hn Hc Halloc. apply bbox_grid_Raise. unfold bbox_grid.
  rewrite (bbox_validate_intro _ _ Hlen Hn). simpl.
  assert (∃ ab, bbox_ensure_open (asanyarray longitudes) (asanyarray latitudes)
                = Ok ab) as [[a b] ->].
  { destruct (bbox_ensure_open_spec _ _ Hlen Hn) as [Hopen Hscal].
    destruct (ends_close _ _); [|by eexists; apply Hopen].
    destruct (Hscal eq_refl) as (x & y & ->). by eexists. }
  simpl. unfold np_empty.
  destruct (Z.ltb_spec (c + 1) 0); [lia|]. simpl. by rewrite Halloc.
Qed.

(** X6: an ellipsoid that [pyproj.Geod] rejects is reported by [bbox] with
    the exception of [pyproj.Geod], for every input that passes the count
    checks and every [c >= -1] for which [np.empty] gets the room for the
    grid of shape [(c + 1, c + 1)], also for a closed ring. *)
Theorem bbox_rejected_ellipsoid longitudes latitudes ellps radius c triangulate e :
  length (asanyarray longitudes) = length (asanyarray latitudes) →
  (4 ≤ length (asanyarray longitudes) ≤ 5)%nat →
  -1 ≤ c →
  np_allocate (c + 1) (c + 1) = Ok tt →
  pyproj_Geod ellps = Raise e →
  bbox longitudes latitudes ellps radius c triangulate = Raise e.
Proof.
  intros Hlen Hn Hc Halloc Hgeod. apply bbox_grid_Raise. unfold bbox_grid.
  rewrite (bbox_validate_intro _ _ Hlen Hn). simpl.
  assert (∃ ab, bbox_ensure_open (asanyarray longitudes) (asanyarray latitudes)
                = Ok ab) as [[a b] ->].
  { destruct (bbox_ensure_open_spec _ _ Hlen Hn) as [Hopen Hscal].
    destruct (ends_close _ _); [|by eexists; apply Hopen].
    destruct (Hscal eq_refl) as (x & y & ->). by eexists. }
  simpl. unfold np_empty.
  destruct (Z.ltb_spec (c + 1) 0); [lia|]. simpl. rewrite Halloc. simpl.
  by rewrite Hgeod.
Qed.

(** X7: an exception of the geodesic reference on the first edge, from
    corner 0 to corner 1 with [c - 1] points and both ends left out, is the
    exception [bbox] raises, for every open input that passes the count
    checks, every [c >= -1] for which [np.empty] gets the room for the grid
    of shape [(c + 1, c + 1)], and an accepted ellipsoid. *)
Theorem bbox_first_edge_failure longitudes latitudes ellps radius c triangulate
    geod lon0 lon1 lat0 lat1 e :
  length (asanyarray longitudes) = length (asanyarray latitudes) →
  (4 ≤ length (asanyarray longitudes) ≤ 5)%nat →
  ends_close (asanyarray longitudes) (asanyarray latitudes) = false →
  -1 ≤ c →
  np_allocate (c + 1) (c + 1) = Ok tt →
  pyproj_Geod ellps = Ok geod →
  asanyarray longitudes !! 0%nat = Some lon0 →
  asanyarray longitudes !! 1%nat = Some lon1 →
  asanyarray latitudes !! 0%nat = Some lat0 →
  asanyarray latitudes !! 1%nat = Some lat1 →
  Geod_npts geod lon0 lat0 lon1 lat1 (c - 1) false 1 1 = Raise e →
  bbox longitudes latitudes ellps radius c triangulate = Raise e.
Proof.
  intros Hlen Hn Hopen Hc Halloc Hgeod Hlon0 Hlon1 Hlat0 Hlat1 Hnpts.
  apply bbox_grid_Raise. unfold bbox_grid.
  rewrite (bbox_validate_intro _ _ Hlen Hn). simpl.
  rewrite (proj1 (bbox_ensure_open_spec _ _ Hlen Hn) Hopen). simpl.
  unfold np_empty. destruct (Z.ltb_spec (c + 1) 0); [lia|]. simpl.
  rewrite Halloc. simpl. rewrite Hgeod. simpl.
  unfold bbox_edges, bbox_extend. simpl.
  rewrite bool_decide_eq_true_2 by done. simpl.
  unfold bbox_update. simpl. unfold geodesic_by_idx. simpl.
  assert (Hget : ∀ (l : list Q) (k : nat) x, l !! k = Some x →
            py_getitem l (Z.of_nat k) = Ok x).
  { intros l k x Hx. pose proof (lookup_lt_Some _ _ _ Hx).
    unfold py_getitem. destruct (Z.ltb_spec (Z.of_nat k) 0); [lia|].
    replace ((0 <=? Z.of_nat k) && (Z.of_nat k <? Z.of_nat (length l))) with true
      by (symmetry; apply andb_true_iff; split; [apply Z.leb_le|apply Z.ltb_lt]; lia).
    by rewrite Nat2Z.id, Hx. }
  pose proof (Hget _ 0%nat _ Hlon0) as G1. pose proof (Hget _ 0%nat _ Hlat0) as G2.
  pose proof (Hget _ 1%nat _ Hlon1) as G3. pose proof (Hget _ 1%nat _ Hlat1) as G4.
  change (Z.of_nat 0) with 0 in G1, G2. change (Z.of_nat 1) with 1 in G3, G4.
  rewrite G1, G2, G3, G4. simpl.
  unfold geodesic. simpl. by rewrite Hnpts.
Qed.
End bbox_success.

(** ** The mesh in closed form *)

Lemma vertex_id_corner_or_new (n0 : Z) (c i j : nat) :
  4 ≤ n0 → (1 ≤ c)%nat → (i ≤ c)%nat → (j ≤ c)%nat →
  0 ≤ vertex_id n0 c i j < 4 ∨ n0 ≤ vertex_id n0 c i j.
Proof.
  intros Hn Hc Hi Hj. unfold vertex_id, edge_value. simpl.
  repeat case_decide; nia.
Qed.

Lemma index_split (c k : nat) :
  (k < c * c)%nat →
  (k `div` c < c)%nat ∧ (k `mod` c < c)%nat ∧ k = (k `div` c * c + k `mod` c)%nat.
Proof.
  intros Hk. assert (Hc : (c ≠ 0)%nat) by lia.
  pose proof (Nat.div_mod_eq k c). pose proof (Nat.mod_upper_bound k c Hc).
  split; [apply Nat.Div0.div_lt_upper_bound; lia|]. lia.
Qed.

Section bbox_closed_form.
Context `{Collaborators}.

Lemma bbox_exact_grid longitudes latitudes ellps c st :
  (∀ geod, pyproj_Geod ellps = Ok geod → npts_exact geod) →
  bbox_grid longitudes latitudes ellps c = Ok st →
  let cn := Z.to_nat c in
  let n0 := Z.of_nat (length (asanyarray longitudes)) in
  1 ≤ c ∧ 4 ≤ n0 ≤ 5 ∧ square (S cn) (idx_map st) ∧
  (∀ i j, (i ≤ cn)%nat → (j ≤ cn)%nat →
     grid_index (idx_map st) i j = Some (vertex_id n0 cn i j)) ∧
  length (bbox_lons st) = length (bbox_lats st) ∧
  Z.of_nat (length (bbox_lons st)) = n0 + (Z.of_nat cn + 3) * (Z.of_nat cn - 1).
Proof.
  intros Hexact Hst cn n0.
  destruct (bbox_grid_inv True _ _ _ _ _ (λ g Hg _, Hexact g Hg) Hst)
    as (geod & g0 & st_e & Hlen & Hn & Hc & _ & _ & _ & _ & Hinv). simpl in Hinv.
  fold cn n0 in Hinv.
  pose proof Hinv as ([Hsq _] & Hll & Hcount & HK). specialize (HK Logic.I).
  split; [done|]. split; [lia|]. split; [done|]. split; [|split; [done|lia]].
  intros i j Hi Hj. eapply final_index; [lia|exact Hinv|done|done|by left].
Qed.

Lemma bbox_exact_faces longitudes latitudes ellps c st fs :
  (∀ geod, pyproj_Geod ellps = Ok geod → npts_exact geod) →
  bbox_grid longitudes latitudes ellps c = Ok st →
  bbox_faces c (c * c) (idx_map st) = Ok fs →
  fs = quad_faces (Z.of_nat (length (asanyarray longitudes))) (Z.to_nat c).
Proof.
  intros Hexact Hst Hfs.
  destruct (bbox_exact_grid _ _ _ _ _ Hexact Hst) as (Hc & Hn & Hsq & Hidx & _).
  set (cn := Z.to_nat c) in *.
  set (n0 := Z.of_nat (length (asanyarray longitudes))) in *.
  destruct (bbox_faces_spec cn (idx_map st) Hsq) as (fs' & Hfs' & Hlen & Hrows).
  replace (Z.of_nat cn) with c in Hfs' by lia.
  assert (fs' = fs) as -> by congruence.
  apply list_eq. intros k. unfold quad_faces.
  destruct (decide (k < cn * cn)%nat) as [Hk|Hk].
  - destruct (index_split cn k Hk) as (Hi & Hj & Hkk).
    rewrite list_lookup_fmap, lookup_seq_lt by done. simpl.
    destruct (Hrows _ _ Hi Hj) as (v1 & v2 & v3 & v4 & H1 & H2 & H3 & H4 & Hrow).
    rewrite <- Hkk in Hrow. rewrite Hrow.
    rewrite Hidx in H1, H2, H3, H4 by lia. by simplify_eq.
  - rewrite (lookup_ge_None_2 fs) by lia.
    rewrite list_lookup_fmap, lookup_seq_ge by lia. done.
Qed.

(** X8: over a geodesic reference that returns the [npts] points it is
    asked for, the face array of a successful [bbox] call is [quad_faces]:
    it is fixed by the number of corners given and by [c], whatever the
    coordinates, the ellipsoid and the radius; the mesh records [c * c] as
    its number of faces. *)
Theorem bbox_faces_closed_form longitudes latitudes ellps radius c mesh :
  (∀ geod, pyproj_Geod ellps = Ok geod → npts_exact geod) →
  bbox longitudes latitudes ellps radius c false = Ok mesh →
  faces mesh = quad_faces (Z.of_nat (length (asanyarray longitudes))) (Z.to_nat c) ∧
  n_faces mesh = c * c.
Proof.
  intros Hexact (st & fs & Hst & Hfs & ->)%bbox_Ok. simpl.
  split; [by eapply bbox_exact_faces|done].
Qed.

(** X9: over such a reference, two successful [bbox] calls with the same
    [c] and the same number of corners have the same face array and as many
    points, whatever their coordinates, ellipsoids and radii. *)
Theorem bbox_faces_coordinate_free lons1 lats1 ellps1 radius1 lons2 lats2 ellps2
    radius2 c mesh1 mesh2 :
  (∀ geod, pyproj_Geod ellps1 = Ok geod → npts_exact geod) →
  (∀ geod, pyproj_Geod ellps2 = Ok geod → npts_exact geod) →
  length (asanyarray lons1) = length (asanyarray lons2) →
  bbox lons1 lats1 ellps1 radius1 c false = Ok mesh1 →
  bbox lons2 lats2 ellps2 radius2 c false = Ok mesh2 →
  faces mesh1 = faces mesh2 ∧ length (points mesh1) = length (points mesh2).
Proof.
  intros Hex1 Hex2 Hlen (st1 & fs1 & Hst1 & Hfs1 & ->)%bbox_Ok
    (st2 & fs2 & Hst2 & Hfs2 & ->)%bbox_Ok. simpl.
  rewrite (bbox_exact_faces _ _ _ _ _ _ Hex1 Hst1 Hfs1).
  rewrite (bbox_exact_faces _ _ _ _ _ _ Hex2 Hst2 Hfs2).
  rewrite Hlen. split; [done|].
  destruct (bbox_exact_grid _ _ _ _ _ Hex1 Hst1) as (_ & _ & _ & _ & Hl1 & Hc1).
  destruct (bbox_exact_grid _ _ _ _ _ Hex2 Hst2) as (_ & _ & _ & _ & Hl2 & Hc2).
  unfold to_xyz. rewrite !length_zip_with. lia.
Qed.

(** X10: over such a reference, a successful [bbox] call on [n] corners
    returns [n + (c + 3) * (c - 1)] points: [(c + 1)^2] for 4 corners, one
    more for 5. *)
Theorem bbox_point_count longitudes latitudes ellps radius c mesh :
  (∀ geod, pyproj_Geod ellps = Ok geod → npts_exact geod) →
  bbox longitudes latitudes ellps radius c false = Ok mesh →
  Z.of_nat (length (points mesh))
  = Z.of_nat (length (asanyarray longitudes)) + (c + 3) * (c - 1) ∧
  (length (asanyarray longitudes) = 4%nat →
   Z.of_nat (length (points mesh)) = (c + 1) * (c + 1)) ∧
  (length (asanyarray longitudes) = 5%nat →
   Z.of_nat (length (points mesh)) = (c + 1) * (c + 1) + 1).
Proof.
  intros Hexact (st & fs & Hst & Hfs & ->)%bbox_Ok. simpl.
  destruct (bbox_exact_grid _ _ _ _ _ Hexact Hst) as (Hc & _ & _ & _ & Hl & Hcount).
  assert (Hpts : Z.of_nat (length (to_xyz (bbox_lons st) (bbox_lats st) radius))
                 = Z.of_nat (length (asanyarray longitudes)) + (c + 3) * (c - 1)).
  { unfold to_xyz. rewrite length_zip_with. lia. }
  split; [done|]. split; intros Hn; rewrite Hpts, Hn; lia.
Qed.

(** X11: a fifth corner that does not close the ring is stored as point 4
    of the mesh, but, over such a reference, no face refers to it: every
    vertex index of a face is one of 0..3 or at least 5. *)
Theorem bbox_fifth_corner_unreferenced longitudes latitudes ellps radius c mesh
    lon lat :
  (∀ geod, pyproj_Geod ellps = Ok geod → npts_exact geod) →
  asanyarray longitudes !! 4%nat = Some lon →
  asanyarray latitudes !! 4%nat = Some lat →
  bbox longitudes latitudes ellps radius c false = Ok mesh →
  points mesh !! 4%nat = Some (lonlat_to_xyz lon lat radius) ∧
  ∀ face v, face ∈ faces mesh → v ∈ face_vertices face → 0 ≤ v < 4 ∨ 5 ≤ v.
Proof.
  intros Hexact Hlon Hlat Hbbox.
  pose proof Hbbox as (st & fs & Hst & Hfs & ->)%bbox_Ok. simpl.
  destruct (bbox_grid_inv True _ _ _ _ _ (λ g Hg _, Hexact g Hg) Hst)
    as (geod & g0 & st_e & _ & Hn & Hc & _ & Hedges & Hinner & _).
  simpl in Hedges, Hn.
  destruct (bbox_buffer_prefix _ _ _ _ _ _ _ Hedges Hinner) as [[kl Hkl] [ka Hka]].
  pose proof (lookup_lt_Some _ _ _ Hlon) as Hlen5.
  split.
  - unfold to_xyz. rewrite lookup_zip_with, Hkl, Hka.
    rewrite (lookup_app_l_Some _ _ _ _ Hlon), (lookup_app_l_Some _ _ _ _ Hlat). done.
  - rewrite (bbox_exact_faces _ _ _ _ _ _ Hexact Hst Hfs).
    intros face v Hface Hv. unfold quad_faces in Hface.
    apply list_elem_of_fmap in Hface as (k & -> & Hk).
    apply elem_of_seq in Hk as [_ Hk]. simpl in Hk.
    destruct (index_split _ k Hk) as (Hi & Hj & _).
    unfold face_vertices in Hv. simpl in Hv.
    set (n0 := Z.of_nat (length (asanyarray longitudes))) in *.
    assert (n0 = 5) by lia.
    assert (Hrange : ∀ i j, (i ≤ Z.to_nat c)%nat → (j ≤ Z.to_nat c)%nat →
              0 ≤ vertex_id n0 (Z.to_nat c) i j < 4 ∨ 5 ≤ vertex_id n0 (Z.to_nat c) i j).
    { intros i j Hi' Hj'.
      destruct (vertex_id_corner_or_new n0 (Z.to_nat c) i j); lia. }
    rewrite !elem_of_cons in Hv.
    destruct Hv as [->|[->|[->|[->|Hv]]]]; [apply Hrange; lia..|].
    by apply elem_of_nil in Hv.
Qed.

(** X12: for every geodesic reference, when the grid construction succeeds
    [bbox_count] is the number of stored points, and as many longitudes as
    latitudes are stored. *)
Theorem bbox_count_is_buffer_length longitudes latitudes ellps c st :
  bbox_grid longitudes latitudes ellps c = Ok st →
  bbox_count st = Z.of_nat (length (bbox_lons st)) ∧
  length (bbox_lons st) = length (bbox_lats st).
Proof.
  intros Hst.
  destruct (bbox_grid_inv False _ _ _ _ _ ltac:(done) Hst)
    as (geod & g0 & st_e & _ & _ & _ & _ & _ & _ & _ & Hinv).
  by destruct Hinv as (_ & Hl & Hcount & _).
Qed.

Lemma bbox_update_wrapped c npts geod idx1 idx2 row column st st' :
  assign_bbox_count (bbox_update c npts geod idx1 idx2 row column st) = Ok st' →
  ∃ glons, bbox_lons st' = bbox_lons st ++ glons ∧ Forall wrapped glons.
Proof.
  intros (glons & glats & g' & Hgeo & _ & ->)%bbox_update_inv. simpl.
  exists glons. split; [done|].
  unfold geodesic_by_idx in Hgeo. simpl in Hgeo.
  apply bind_Ok in Hgeo as (a & _ & Hg). apply bind_Ok in Hg as (a' & _ & Hg).
  apply bind_Ok in Hg as (b & _ & Hg). apply bind_Ok in Hg as (b' & _ & Hg).
  apply geodesic_inv in Hg as (g & pts & _ & _ & _ & -> & _).
  unfold wrap. apply Forall_fmap, Forall_forall. intros lon _. apply wrap1_range.
Qed.

(** X13: the vertex buffer holds the corner longitudes as given, not
    wrapped, followed by interpolated longitudes, which all lie in
    [-180, 180). *)
Theorem bbox_buffer_longitudes longitudes latitudes ellps c st :
  bbox_grid longitudes latitudes ellps c = Ok st →
  ∃ glons, bbox_lons st = asanyarray longitudes ++ glons ∧ Forall wrapped glons.
Proof.
  intros Hst.
  destruct (bbox_grid_inv False _ _ _ _ _ ltac:(done) Hst)
    as (geod & g0 & st_e & _ & _ & Hc & _ & Hedges & Hinner & _).
  simpl in Hedges. set (xs := asanyarray longitudes) in *.
  pose (J := λ t : state, ∃ glons, bbox_lons t = xs ++ glons ∧ Forall wrapped glons).
  assert (Hstep : ∀ idx1 idx2 row column t t',
            J t →
            assign_bbox_count (bbox_update c (c - 1) geod idx1 idx2 row column t)
              = Ok t' → J t').
  { intros idx1 idx2 row column t t' (gl & Hgl & Hw)
      (gl' & Hgl' & Hw')%bbox_update_wrapped.
    exists (gl ++ gl'). rewrite Hgl', Hgl, app_assoc. split; [done|].
    by apply Forall_app. }
  assert (He : J st_e).
  { unfold bbox_edges in Hedges.
    apply bind_Ok in Hedges as (st0 & [_ ->]%bbox_extend_arrays & Hrest).
    apply bind_Ok in Hrest as (st1 & Hu1 & Hrest).
    apply bind_Ok in Hrest as (st2 & Hu2 & Hrest).
    apply bind_Ok in Hrest as (st3 & Hu3 & Hu4).
    eapply Hstep; [|exact Hu4]. eapply Hstep; [|exact Hu3].
    eapply Hstep; [|exact Hu2]. eapply Hstep; [|exact Hu1].
    exists []. simpl. by rewrite app_nil_r. }
  unfold bbox_inner, py_range in Hinner.
  replace c with (1 + (c - 1)) at 1 by lia.
  eapply (for_each_seqZ (λ _, J) (bbox_inner_row c (c - 1) geod) 1 (c - 1) st_e st);
    [|lia|done|done].
  intros i t t' _ Ht. unfold bbox_inner_row.
  intros (row & _ & (first & _ & (last & _ & Hupd)%bind_Ok)%bind_Ok)%bind_Ok.
  by eapply Hstep.
Qed.
End bbox_closed_form.

(** ** [capitalise] *)

Example capitalise_standard_name :
  capitalise "sea_surface_wave_significant_height"
  = "Sea Surface Wave Significant Height".
Proof. vm_compute. reflexivity. Qed.

Example capitalise_edges :
  capitalise "" = "" ∧ capitalise "_" = " " ∧ capitalise "a__bC d" = "A  Bc D".
Proof. vm_compute. done. Qed.

Lemma str_split_nonempty sep s : str_split sep s ≠ [].
Proof.
  destruct s as [|c s]; simpl; [done|].
  destruct (Ascii.eqb c sep); [done|]. by destruct (str_split sep s).
Qed.

Lemma str_join_cons sep c w rest :
  str_join sep (String c w :: rest) = String c (str_join sep (w :: rest)).
Proof. simpl. by destruct rest. Qed.

Lemma is_sep_cases (c : ascii) :
  is_sep c = true ∧ (if Ascii.eqb c "_" then " "%char else c) = " "%char
  ∨ is_sep c = false ∧ (if Ascii.eqb c "_" then " "%char else c) = c
    ∧ Ascii.eqb c " " = false.
Proof.
  unfold is_sep. destruct (Ascii.eqb_spec c "_") as [->|H1]; [by left|].
  destruct (Ascii.eqb_spec c " ") as [->|H2]; [by left|]. by right.
Qed.

Lemma str_replace_cons old new c s :
  str_replace old new (String c s)
  = String (if Ascii.eqb c old then new else c) (str_replace old new s).
Proof. done. Qed.

(** The words of a title, the first one being inside a word unless
    [start]. *)
Lemma capitalise_words (start : bool) (s : string) :
  match str_split " " (str_replace "_" " " s) with
  | w :: ws =>
      str_join " " ((if start then str_capitalize w else str_map lower_char w)
                    :: (str_capitalize <$> ws))
  | [] => EmptyString
  end = title_case start s.
Proof.
  revert start. induction s as [|c s IH]; intros start.
  - by destruct start.
  - rewrite str_replace_cons. set (r := str_replace "_" " " s) in *.
    destruct (is_sep_cases c) as [[Hsep ->]|(Hsep & -> & Hsp)];
      simpl; rewrite Hsep.
    + pose proof (IH true) as IHt.
      destruct (str_split " " r) as [|w ws] eqn:Hs;
        [by apply str_split_nonempty in Hs|].
      rewrite <- IHt. by destruct start.
    + rewrite Hsp. pose proof (IH false) as IHf.
      destruct (str_split " " r) as [|w ws] eqn:Hs;
        [by apply str_split_nonempty in Hs|].
      rewrite <- IHf. by destruct start; simpl; destruct ws.
Qed.

Lemma capitalise_title_case (s : string) : capitalise s = title_case true s.
Proof.
  unfold capitalise. rewrite <- (capitalise_words true s).
  destruct (str_split " " (str_replace "_" " " s)) as [|w ws] eqn:Hs;
    [by apply str_split_nonempty in Hs|done].
Qed.

Lemma case_char_facts (c : ascii) :
  upper_char (upper_char c) = upper_char c ∧
  lower_char (lower_char c) = lower_char c ∧
  (is_sep c = false → is_sep (upper_char c) = false ∧ is_sep (lower_char c) = false).
Proof. destruct c as [[] [] [] [] [] [] [] []]; vm_compute; done. Qed.

Lemma title_case_idem (start : bool) (s : string) :
  title_case start (title_case start s) = title_case start s.
Proof.
  revert start. induction s as [|c s IH]; intros start; simpl; [done|].
  destruct (is_sep c) eqn:Hc; simpl.
  - by rewrite IH.
  - destruct (case_char_facts c) as (Hu & Hl & Hsep).
    destruct (Hsep Hc) as [Hsu Hsl].
    destruct start; [rewrite Hsu, Hu|rewrite Hsl, Hl]; by rewrite IH.
Qed.

Lemma title_case_length (start : bool) (s : string) :
  String.length (title_case start s) = String.length s.
Proof.
  revert start. induction s as [|c s IH]; intros start; simpl; [done|].
  destruct (is_sep c); simpl; by rewrite IH.
Qed.

Lemma title_case_no_underscore (start : bool) (s : string) :
  str_contains "_" (title_case start s) = false.
Proof.
  revert start. induction s as [|c s IH]; intros start; [done|].
  cbn [title_case]. destruct (is_sep c) eqn:Hc; cbn [str_contains].
  - by rewrite IH.
  - rewrite IH, orb_false_r. destruct (case_char_facts c) as (_ & _ & Hsep).
    destruct (Hsep Hc) as [Hsu Hsl]. unfold is_sep in Hsu, Hsl.
    apply orb_false_iff in Hsu as [Hsu _]. apply orb_false_iff in Hsl as [Hsl _].
    rewrite Ascii.eqb_sym. by destruct start.
Qed.

(** X14: on ASCII titles, replacing, splitting, capitalising the words and
    joining them is one pass over the characters: every underscore and space
    becomes a space, the first character of the title and of every word goes
    to upper case, every other character to lower case. *)
Theorem capitalise_one_pass (title : string) :
  is_ascii title → capitalise title = title_case true title.
Proof. intros _. apply capitalise_title_case. Qed.

(** X15: on ASCII titles [capitalise] keeps the length of the title and
    leaves no underscore in it. *)
Theorem capitalise_length_no_underscore (title : string) :
  is_ascii title →
  String.length (capitalise title) = String.length title ∧
  str_contains "_" (capitalise title) = false.
Proof.
  intros _. rewrite capitalise_title_case.
  split; [apply title_case_length|apply title_case_no_underscore].
Qed.

(** X16: on ASCII titles [capitalise] is idempotent. *)
Theorem capitalise_idempotent (title : string) :
  is_ascii title → capitalise (capitalise title) = capitalise title.
Proof. intros _. rewrite !capitalise_title_case. apply title_case_idem. Qed.

(** ** A negative grid shape *)

Section bbox_negative.
Context `{Collaborators}.

(** X17: for an input that passes the count checks, [c < -1] makes [bbox]
    raise the [ValueError] of [np.empty] for a negative shape, before the
    ellipsoid is looked up and whether or not the ring is closed. *)
Theorem bbox_negative_dimensions longitudes latitudes ellps radius c triangulate :
  length (asanyarray longitudes) = length (asanyarray latitudes) →
  (4 ≤ length (asanyarray longitudes) ≤ 5)%nat →
  c < -1 →
  bbox longitudes latitudes ellps radius c triangulate
  = Raise (ValueError "negative dimensions are not allowed").
Proof.
  intros Hlen Hn Hc. apply bbox_grid_Raise. unfold bbox_grid.
  rewrite (bbox_validate_intro _ _ Hlen Hn). simpl.
  assert (∃ ab, bbox_ensure_open (asanyarray longitudes) (asanyarray latitudes)
                = Ok ab) as [[a b] ->].
  { destruct (bbox_ensure_open_spec _ _ Hlen Hn) as [Hopen Hscal].
    destruct (ends_close _ _); [|by eexists; apply Hopen].
    destruct (Hscal eq_refl) as (x & y & ->). by eexists. }
  simpl. unfold np_empty. destruct (Z.ltb_spec (c + 1) 0); [done|lia].
Qed.
End bbox_negative.

(** ** The further properties on concrete inputs *)

Lemma geodesic_needs_points_witness :
  (Geod_npts (Collaborators := planar) "WGS84" 0 0 10 0 0 false 1 1 = Ok [] →
   geodesic 0 0 10 0 0 false false false None
   = Raise (ValueError "not enough values to unpack (expected 2, got 0)")) ∧
  (∀ e, Geod_npts (Collaborators := planar) "WGS84" 0 0 10 0 0 false 1 1 = Raise e →
        geodesic 0 0 10 0 0 false false false None = Raise e) ∧
  (∀ glons glats,
     geodesic 0 0 10 0 0 false false false None = Ok (glons, glats) →
     glons ≠ [] ∧ glats ≠ []).
Proof.
  apply (geodesic_needs_points (H := planar) 0 0 10 0 0 false false false None "WGS84").
  reflexivity.
Defined.

Lemma geodesic_by_idx_out_of_range_witness :
  geodesic_by_idx box_lons box_lats 4 0 3 false false false None
  = Raise (IndexError "list index out of range").
Proof.
  apply (geodesic_by_idx_out_of_range (H := planar) box_lons box_lats 4 0 3
           false false false None "WGS84").
  - reflexivity.
  - left. unfold valid_index. simpl. lia.
Defined.

Lemma geodesic_by_idx_negative_witness :
  geodesic_by_idx box_lons box_lats (-1) (-4) 3 false false false None
  = geodesic_by_idx box_lons box_lats (-1 + Z.of_nat (length box_lons))
      (-4 + Z.of_nat (length box_lons)) 3 false false false None.
Proof.
  apply (geodesic_by_idx_negative (H := planar) box_lons box_lats (-1) (-4) 3
           false false false None).
  - reflexivity.
  - simpl. lia.
  - simpl. lia.
Defined.

Lemma bbox_success_requirements_witness :
  length (asanyarray (array box_lons)) = length (asanyarray (array box_lats)) ∧
  (4 ≤ length (asanyarray (array box_lons)) ≤ 5)%nat ∧
  ends_close (asanyarray (array box_lons)) (asanyarray (array box_lats)) = false ∧
  1 ≤ 2 ∧
  ∃ geod, pyproj_Geod "WGS84" = Ok geod.
Proof.
  apply (bbox_success_requirements (H := planar) (array box_lons) (array box_lats)
           "WGS84" (11 # 10) 2 false box_mesh).
  vm_compute. reflexivity.
Defined.

Lemma bbox_needs_two_subdivisions_witness : 2 ≤ 2.
Proof.
  apply (bbox_needs_two_subdivisions (H := planar) (array box_lons) (array box_lats)
           "WGS84" (11 # 10) 2 false box_mesh).
  - intros geod _. apply planar_npts_exact.
  - vm_compute. reflexivity.
Defined.

(** Over the bounded allocator a grid for [c = 2 ^ 40] is refused, and
    [bbox] raises the allocator's exception. *)
Example bbox_grid_too_large :
  bbox (H := planar) (array box_lons) (array box_lats) "WGS84" 1 (2 ^ 40) false
  = Raise (MemoryError "Unable to allocate the array").
Proof.
  apply (bbox_allocation_failure (H := planar)).
  - reflexivity.
  - simpl. lia.
  - lia.
  - vm_compute. reflexivity.
Qed.

Lemma bbox_rejected_ellipsoid_witness :
  bbox (H := strict) (array ring_lons) (array ring_lats) "sphere?" 1 2 false
  = Raise (ExternalError "invalid ellipsoid").
Proof.
  apply (bbox_rejected_ellipsoid (H := strict) (array ring_lons) (array ring_lats)
           "sphere?" 1 2 false).
  - reflexivity.
  - simpl. lia.
  - lia.
  - vm_compute. reflexivity.
  - vm_compute. reflexivity.
Defined.

Lemma bbox_first_edge_failure_witness :
  bbox (H := strict) (array box_lons) (array box_lats) "WGS84" 1 1 false
  = Raise (ExternalError "npts must be positive").
Proof.
  apply (bbox_first_edge_failure (H := strict) (array box_lons) (array box_lats)
           "WGS84" 1 1 false "WGS84" 0%Q 10%Q 0%Q 0%Q).
  - reflexivity.
  - simpl. lia.
  - vm_compute. reflexivity.
  - lia.
  - vm_compute. reflexivity.
  - vm_compute. reflexivity.
  - reflexivity.
  - reflexivity.
  - reflexivity.
  - reflexivity.
  - vm_compute. reflexivity.
Defined.

Lemma bbox_faces_closed_form_witness :
  faces open5_mesh = quad_faces (Z.of_nat (length (asanyarray (array open5_lons))))
                       (Z.to_nat 3) ∧
  n_faces open5_mesh = 3 * 3.
Proof.
  apply (bbox_faces_closed_form (H := planar) (array open5_lons) (array open5_lats)
           "WGS84" (11 # 10) 3 open5_mesh).
  - intros geod _. apply planar_npts_exact.
  - vm_compute. reflexivity.
Defined.

Lemma bbox_faces_coordinate_free_witness :
  faces box_mesh = faces box_mesh3 ∧
  length (points box_mesh) = length (points box_mesh3).
Proof.
  apply (bbox_faces_coordinate_free (H := planar) (array box_lons) (array box_lats)
           "WGS84" (11 # 10) (array [20; 40; 40; 20]%Q) (array [-5; -5; 5; 5]%Q)
           "WGS84" 2 2 box_mesh box_mesh3).
  - intros geod _. apply planar_npts_exact.
  - intros geod _. apply planar_npts_exact.
  - reflexivity.
  - vm_compute. reflexivity.
  - vm_compute. reflexivity.
Defined.

Lemma bbox_point_count_witness :
  Z.of_nat (length (points open5_mesh))
  = Z.of_nat (length (asanyarray (array open5_lons))) + (3 + 3) * (3 - 1) ∧
  (length (asanyarray (array open5_lons)) = 4%nat →
   Z.of_nat (length (points open5_mesh)) = (3 + 1) * (3 + 1)) ∧
  (length (asanyarray (array open5_lons)) = 5%nat →
   Z.of_nat (length (points open5_mesh)) = (3 + 1) * (3 + 1) + 1).
Proof.
  apply (bbox_point_count (H := planar) (array open5_lons) (array open5_lats)
           "WGS84" (11 # 10) 3 open5_mesh).
  - intros geod _. apply planar_npts_exact.
  - vm_compute. reflexivity.
Defined.

Lemma bbox_fifth_corner_unreferenced_witness :
  points open5_mesh !! 4%nat = Some (5%Q, 20%Q, (11 # 10)%Q) ∧
  ∀ face v, face ∈ faces open5_mesh → v ∈ face_vertices face → 0 ≤ v < 4 ∨ 5 ≤ v.
Proof.
  apply (bbox_fifth_corner_unreferenced (H := planar) (array open5_lons)
           (array open5_lats) "WGS84" (11 # 10) 3 open5_mesh 5%Q 20%Q).
  - intros geod _. apply planar_npts_exact.
  - reflexivity.
  - reflexivity.
  - vm_compute. reflexivity.
Defined.

Lemma bbox_count_is_buffer_length_witness :
  bbox_count box_state = Z.of_nat (length (bbox_lons box_state)) ∧
  length (bbox_lons box_state) = length (bbox_lats box_state).
Proof.
  apply (bbox_count_is_buffer_length (H := planar) (array box_lons) (array box_lats)
           "WGS84" 2 box_state).
  vm_compute. reflexivity.
Defined.

Lemma bbox_buffer_longitudes_witness :
  ∃ glons, bbox_lons wide_state = asanyarray (array wide_lons) ++ glons ∧
           Forall wrapped glons.
Proof.
  apply (bbox_buffer_longitudes (H := planar) (array wide_lons) (array box_lats)
           "WGS84" 2 wide_state).
  vm_compute. reflexivity.
Defined.

Example wide_state_longitudes :
  bbox_lons wide_state = [170; 190; 190; 170; -180; -180; 170; -170; 0]%Q.
Proof. vm_compute. reflexivity. Qed.

Lemma capitalise_one_pass_witness :
  capitalise "sea_surface_height" = title_case true "sea_surface_height".
Proof.
  apply (capitalise_one_pass "sea_surface_height").
  vm_compute. repeat split; lia.
Defined.

Lemma capitalise_length_no_underscore_witness :
  String.length (capitalise "sea_surface_height") = String.length "sea_surface_height" ∧
  str_contains "_" (capitalise "sea_surface_height") = false.
Proof.
  apply (capitalise_length_no_underscore "sea_surface_height").
  vm_compute. repeat split; lia.
Defined.

Lemma capitalise_idempotent_witness :
  capitalise (capitalise "sea_surface_height") = capitalise "sea_surface_height".
Proof.
  apply (capitalise_idempotent "sea_surface_height").
  vm_compute. repeat split; lia.
Defined.

Lemma bbox_negative_dimensions_witness :
  bbox (array ring_lons) (array ring_lats) "WGS84" 1 (-2) true
  = Raise (ValueError "negative dimensions are not allowed").
Proof.
  apply (bbox_negative_dimensions (H := planar) (array ring_lons) (array ring_lats)
           "WGS84" 1 (-2) true).
  - reflexivity.
  - simpl. lia.
  - lia.
Defined.
